(** * quirkventory: order processing and inventory mutation

    A shallow embedding of the order/inventory core of the repository
    (Product.cpp, Inventory.cpp, Order.cpp) together with the properties
    its specification states about it.

    Conventions of the embedding:
    - a C++ [int] is a [Z] and every arithmetic result is passed through
      [wrap_int] (32-bit two's complement);
    - a [double] is a binary64 primitive float;
    - a [std::chrono::system_clock::time_point] is a [Z] counting clock
      ticks since the epoch, and one reading [now] of the clock is shared
      by all the reads a single call performs;
    - a [std::unordered_map] keyed by strings is a [gmap string _];
    - a [std::mutex] is a boolean that tells whether the mutex is held;
      [std::mutex] is not recursive: locking a mutex the thread already
      holds is undefined behaviour, and with the usual pthread mutex the
      thread blocks in [lock()] for ever; a call that locks a held mutex
      has the outcome [Deadlock];
    - a function that mutates an object is a function from the state
      before the call to an [outcome] holding the result and the state
      after the call. *)

From Stdlib Require Import ZArith Lia Floats Uint63 Ascii String.
From stdpp Require Import base option list strings gmap pretty.

Open Scope Z_scope.

(** A decimal literal such as [0.05] stands for the nearest [double], as
    it does in the C++ source. *)
#[global] Set Warnings "-inexact-float".

(** ** Machine integers *)

Definition INT_MAX : Z := 2147483647.
Definition INT_MIN : Z := -2147483648.

Definition wrap_int (z : Z) : Z := (z + 2 ^ 31) mod 2 ^ 32 - 2 ^ 31.

Definition in_int (z : Z) : Prop := INT_MIN ≤ z ≤ INT_MAX.

(** [long long], the representation of clock durations. *)
Definition wrap_i64 (z : Z) : Z := (z + 2 ^ 63) mod 2 ^ 64 - 2 ^ 63.

(** [static_cast<double>(int)]: exact for every 32-bit integer. *)
Definition double_of_int (z : Z) : float :=
  if z <? 0 then PrimFloat.opp (PrimFloat.of_uint63 (Uint63.of_Z (- z)))
  else PrimFloat.of_uint63 (Uint63.of_Z z).

(** ** Strings of numbers *)

(** [std::to_string(int)]. *)
Definition to_string_int (z : Z) : string := pretty z.

Definition pad6 (n : Z) : string :=
  let s := pretty n in
  String.string_of_list_ascii
    (List.repeat "0"%char (6 - String.length s)%nat) +:+ s.

(** [std::to_string(double)] formats with ["%f"]: six decimals, the exact
    binary value rounded to nearest, ties to even (the sign of a NaN is
    not represented). *)
Definition to_string_double (f : float) : string :=
  match Prim2SF f with
  | S754_nan => "nan"
  | S754_infinity s => if s then "-inf" else "inf"
  | S754_zero s => if s then "-0.000000" else "0.000000"
  | S754_finite s m e =>
      let scaled :=
        if 0 <=? e then Z.pos m * 2 ^ e * 10 ^ 6
        else
          let d := 2 ^ (- e) in
          let n := Z.pos m * 10 ^ 6 in
          let q := n / d in
          let r := n mod d in
          if 2 * r <? d then q
          else if d <? 2 * r then q + 1
          else if Z.even q then q else q + 1 in
      (if s then "-" else "") +:+ pretty (scaled / 10 ^ 6) +:+ "."
        +:+ pad6 (scaled mod 10 ^ 6)
  end.

(** The character ['\n']. *)
Definition newline : string := String (Ascii.ascii_of_nat 10) EmptyString.

(** ** Calls that may never return *)

Inductive outcome (S A : Type) : Type :=
| Returned (a : A) (s : S)
| Deadlock.
Arguments Returned {S A} a s.
Arguments Deadlock {S A}.

Definition M (S A : Type) : Type := S → outcome S A.

(** The calls form a monad; stdpp's [x ← m; k] and [m;; k] sequence them. *)
#[export] Instance call_ret {S} : MRet (M S) := λ A a s, Returned a s.

#[export] Instance call_bind {S} : MBind (M S) :=
  λ A B k m s, match m s with
               | Returned a s' => k a s'
               | Deadlock => Deadlock
               end.

Definition get {S} : M S S := λ s, Returned s s.
Definition modify {S} (f : S → S) : M S unit := λ s, Returned tt (f s).

(** [std::lock_guard<std::mutex> lock(m); body]: the guard locks on entry
    and unlocks when the scope is left, whatever [return] leaves it. *)
Section LockGuard.
Context {S : Type} (held : S → bool) (set_held : bool → S → S).

Definition lock : M S unit :=
  λ s, if held s then Deadlock else Returned tt (set_held true s).

Definition unlock : M S unit := modify (set_held false).

Definition lock_guard {A} (body : M S A) : M S A :=
  lock;; r ← body; unlock;; mret r.
End LockGuard.

(** Running a call on one component of a pair of objects. *)
Definition on_fst {S T A} (m : M S A) : M (S * T) A :=
  λ w, match m (fst w) with
       | Returned a s' => Returned a (s', snd w)
       | Deadlock => Deadlock
       end.

Definition on_snd {S T A} (m : M T A) : M (S * T) A :=
  λ w, match m (snd w) with
       | Returned a t' => Returned a (fst w, t')
       | Deadlock => Deadlock
       end.

(** The exceptions the code throws where it does not answer [false]. *)
Inductive exception : Type :=
| invalid_argument (what : string)
| runtime_error (what : string).

(** ** Product.hpp, Product.cpp *)

Definition time_point : Type := Z.

(** Ticks of [system_clock] per hour (nanosecond ticks). *)
Definition ticks_per_hour : Z := 3600 * 10 ^ 9.

Module PerishableProduct.

(** The members [PerishableProduct] adds to [Product]. *)
Record members : Type := Members {
  expiry_date_ : time_point;
  storage_requirements_ : string;
  storage_temperature_ : float
}.

Definition isExpired (now : time_point) (p : members) : bool :=
  expiry_date_ p <? now.

Definition getDaysUntilExpiry (now : time_point) (p : members) : Z :=
  let duration := wrap_i64 (expiry_date_ p - now) in
  let days := Z.quot (Z.quot duration ticks_per_hour) 24 in
  wrap_int days.

Definition expiresSoon (now : time_point) (days : Z) (p : members) : bool :=
  if isExpired now p then true else getDaysUntilExpiry now p <=? days.

Definition getExpiryInfo (now : time_point) (p : members) : string :=
  if isExpired now p then "EXPIRED"
  else to_string_int (getDaysUntilExpiry now p) +:+ " days remaining".

(** [None] is the [std::invalid_argument] the setter throws. *)
Definition setExpiryDate (now : time_point) (expiry_date : time_point)
    (p : members) : option members :=
  if expiry_date <? now then None
  else Some (Members expiry_date (storage_requirements_ p) (storage_temperature_ p)).

End PerishableProduct.

Module Product.

(** A [Product] object; [perishable_] holds the extra members when the
    object is a [PerishableProduct] and is [None] for a class that keeps
    the base [isExpired]. *)
Record t : Type := Make {
  id_ : string;
  name_ : string;
  category_ : string;
  price_ : float;
  quantity_ : Z;
  created_date_ : time_point;
  perishable_ : option PerishableProduct.members
}.

Definition with_quantity (q : Z) (p : t) : t :=
  Make (id_ p) (name_ p) (category_ p) (price_ p) q (created_date_ p)
       (perishable_ p).

(** The constructors: [Product(id, name, category, price, quantity)] and
    [PerishableProduct(..., expiry_date, ...)], called at time [now];
    [None] is the [std::invalid_argument] they throw. *)
Definition create (now : time_point) (id name category : string) (price : float)
    (quantity : Z) : option t :=
  if bool_decide (id = "") then None
  else if bool_decide (name = "") then None
  else if PrimFloat.ltb price 0%float then None
  else if quantity <? 0 then None
  else Some (Make id name category price quantity now None).

Definition create_perishable (now : time_point) (id name category : string)
    (price : float) (quantity : Z) (expiry_date : time_point)
    (storage_requirements : string) (storage_temperature : float) : option t :=
  match create now id name category price quantity with
  | None => None
  | Some p =>
      if expiry_date <? now then None
      else Some (Make id name category price quantity now
                   (Some (PerishableProduct.Members expiry_date
                            storage_requirements storage_temperature)))
  end.

Definition getQuantity (p : t) : Z := quantity_ p.
Definition getPrice (p : t) : float := price_ p.

(** [None] is the [std::invalid_argument] the setter throws. *)
Definition setQuantity (quantity : Z) (p : t) : option t :=
  if quantity <? 0 then None else Some (with_quantity quantity p).

Definition addQuantity (amount : Z) (p : t) : option t :=
  if amount <? 0 then None
  else Some (with_quantity (wrap_int (quantity_ p + amount)) p).

Definition removeQuantity (amount : Z) (p : t) : option t :=
  if amount <? 0 then None
  else if quantity_ p <? amount then None
  else Some (with_quantity (wrap_int (quantity_ p - amount)) p).

(** Virtual [isExpired]: the base class answers [false]. *)
Definition isExpired (now : time_point) (p : t) : bool :=
  match perishable_ p with
  | Some e => PerishableProduct.isExpired now e
  | None => false
  end.

Definition isLowStock (threshold : Z) (p : t) : bool :=
  quantity_ p <? threshold.

Definition setName (name : string) (p : t) : option t :=
  if bool_decide (name = "") then None
  else Some (Make (id_ p) name (category_ p) (price_ p) (quantity_ p)
               (created_date_ p) (perishable_ p)).

Definition setCategory (category : string) (p : t) : t :=
  Make (id_ p) (name_ p) category (price_ p) (quantity_ p) (created_date_ p)
       (perishable_ p).

Definition setPrice (price : float) (p : t) : option t :=
  if PrimFloat.ltb price 0%float then None
  else Some (Make (id_ p) (name_ p) (category_ p) price (quantity_ p)
               (created_date_ p) (perishable_ p)).

(** Virtual [getExpiryInfo]. *)
Definition getExpiryInfo (now : time_point) (p : t) : string :=
  match perishable_ p with
  | Some e => PerishableProduct.getExpiryInfo now e
  | None => "Non-perishable"
  end.

End Product.

(** ** Inventory.hpp, Inventory.cpp *)

Module Inventory.

(** A registered [std::function] is known by a handle; what the callbacks
    do is outside the inventory, so the calls made to them are recorded,
    in order, in [delivered_]. *)
Definition callback : Type := nat.

Record t : Type := Make {
  products_ : gmap string Product.t;
  inventory_mutex_ : bool;
  default_low_stock_threshold_ : Z;
  category_thresholds_ : gmap string Z;
  alert_callbacks_ : list callback;
  delivered_ : list (callback * string)
}.

Definition with_products (m : gmap string Product.t) (inv : t) : t :=
  Make m (inventory_mutex_ inv) (default_low_stock_threshold_ inv)
       (category_thresholds_ inv) (alert_callbacks_ inv) (delivered_ inv).

Definition with_mutex (b : bool) (inv : t) : t :=
  Make (products_ inv) b (default_low_stock_threshold_ inv)
       (category_thresholds_ inv) (alert_callbacks_ inv) (delivered_ inv).

Definition with_thresholds (m : gmap string Z) (inv : t) : t :=
  Make (products_ inv) (inventory_mutex_ inv)
       (default_low_stock_threshold_ inv) m (alert_callbacks_ inv)
       (delivered_ inv).

Definition with_callbacks (l : list callback) (inv : t) : t :=
  Make (products_ inv) (inventory_mutex_ inv)
       (default_low_stock_threshold_ inv) (category_thresholds_ inv) l
       (delivered_ inv).

Definition with_delivered (l : list (callback * string)) (inv : t) : t :=
  Make (products_ inv) (inventory_mutex_ inv)
       (default_low_stock_threshold_ inv) (category_thresholds_ inv)
       (alert_callbacks_ inv) l.

Definition guarded {A} (body : M t A) : M t A :=
  lock_guard inventory_mutex_ with_mutex body.

(** [Inventory(int default_threshold = 10)]. *)
Definition create (default_threshold : Z) : t :=
  Make ∅ false default_threshold ∅ [] [].

Definition addProduct (product : Product.t) : M t bool :=
  guarded (
    inv ← get;
    match products_ inv !! Product.id_ product with
    | Some _ => mret false
    | None =>
        modify (with_products (<[Product.id_ product := product]> (products_ inv)));;
        mret true
    end).

Definition updateQuantity (product_id : string) (new_quantity : Z) : M t bool :=
  if new_quantity <? 0 then mret false
  else guarded (
    inv ← get;
    match products_ inv !! product_id with
    | None => mret false
    | Some p =>
        match Product.setQuantity new_quantity p with
        | Some p' =>
            modify (with_products (<[product_id := p']> (products_ inv)));;
            mret true
        | None => mret false
        end
    end).

Definition addQuantity (product_id : string) (amount : Z) : M t bool :=
  if amount <? 0 then mret false
  else guarded (
    inv ← get;
    match products_ inv !! product_id with
    | None => mret false
    | Some p =>
        match Product.addQuantity amount p with
        | Some p' =>
            modify (with_products (<[product_id := p']> (products_ inv)));;
            mret true
        | None => mret false
        end
    end).

(** Reads the maps without locking: the caller holds the mutex. *)
Definition getThreshold (product_id : string) (inv : t) : Z :=
  match products_ inv !! product_id with
  | None => default_low_stock_threshold_ inv
  | Some p =>
      match category_thresholds_ inv !! Product.category_ p with
      | Some threshold => threshold
      | None => default_low_stock_threshold_ inv
      end
  end.

(** Calls every registered callback, in registration order; what a
    callback throws is swallowed. *)
Definition sendAlert (message : string) : M t unit :=
  modify (λ inv,
    with_delivered
      (delivered_ inv ++ ((λ cb, (cb, message)) <$> alert_callbacks_ inv))
      inv).

Definition low_stock_alert (p : Product.t) (product_id : string)
    (threshold : Z) : string :=
  "LOW STOCK ALERT: Product '" +:+ Product.name_ p +:+ "' (ID: "
    +:+ product_id +:+ ") is now at "
    +:+ to_string_int (Product.getQuantity p)
    +:+ " units (threshold: " +:+ to_string_int threshold +:+ ")".

Definition removeQuantity (product_id : string) (amount : Z) : M t bool :=
  if amount <? 0 then mret false
  else guarded (
    inv ← get;
    match products_ inv !! product_id with
    | None => mret false
    | Some p =>
        if Product.getQuantity p <? amount then mret false
        else
          match Product.removeQuantity amount p with
          | None => mret false
          | Some p' =>
              modify (with_products (<[product_id := p']> (products_ inv)));;
              inv' ← get;
              let threshold := getThreshold product_id inv' in
              (if Product.getQuantity p' <? threshold
               then sendAlert (low_stock_alert p' product_id threshold)
               else mret tt);;
              mret true
          end
    end).

Definition getProduct (product_id : string) : M t (option Product.t) :=
  guarded (inv ← get; mret (products_ inv !! product_id)).

Definition setCategoryThreshold (category : string) (threshold : Z) : M t unit :=
  guarded (
    inv ← get;
    modify (with_thresholds (<[category := threshold]> (category_thresholds_ inv)))).

Definition registerAlertCallback (cb : callback) : M t unit :=
  guarded (
    inv ← get;
    modify (with_callbacks (alert_callbacks_ inv ++ [cb]))).

Definition getAvailableQuantity (product_id : string) : M t Z :=
  guarded (
    inv ← get;
    mret (match products_ inv !! product_id with
          | None => -1
          | Some p => Product.getQuantity p
          end)).

Definition removeProduct (product_id : string) : M t bool :=
  guarded (
    inv ← get;
    match products_ inv !! product_id with
    | None => mret false
    | Some _ =>
        modify (with_products (delete product_id (products_ inv)));;
        mret true
    end).

Definition hasProduct (product_id : string) : M t bool :=
  guarded (
    inv ← get;
    mret (match products_ inv !! product_id with
          | Some _ => true
          | None => false
          end)).

(** A loop over [products_] visits the entries in the order of the
    [unordered_map], which the standard leaves open; the embedding visits
    them in the order of [map_to_list]. *)
Definition entries (inv : t) : list (string * Product.t) :=
  map_to_list (products_ inv).

Definition getAllProducts : M t (list Product.t) :=
  guarded (inv ← get; mret ((entries inv).*2)).

Definition getProductsByCategory (category : string) : M t (list Product.t) :=
  guarded (
    inv ← get;
    mret ((filter (λ pair, Product.category_ pair.2 = category) (entries inv)).*2)).

Definition getLowStockProducts : M t (list Product.t) :=
  guarded (
    inv ← get;
    mret ((filter (λ pair, Product.getQuantity pair.2 < getThreshold pair.1 inv)
                  (entries inv)).*2)).

Definition getExpiredProducts (now : time_point) : M t (list Product.t) :=
  guarded (
    inv ← get;
    mret ((filter (λ pair, Product.isExpired now pair.2 = true) (entries inv)).*2)).

(** [dynamic_cast<const PerishableProduct*>] succeeds on the products that
    carry the perishable members. *)
Definition expires_soon (now : time_point) (days : Z) (p : Product.t) : bool :=
  match Product.perishable_ p with
  | Some e => PerishableProduct.expiresSoon now days e
  | None => false
  end.

Definition getExpiringSoonProducts (now : time_point) (days : Z)
    : M t (list Product.t) :=
  guarded (
    inv ← get;
    mret ((filter (λ pair, expires_soon now days pair.2 = true) (entries inv)).*2)).

(** [size_t] count. *)
Definition getTotalProductCount : M t N :=
  guarded (inv ← get; mret (N.of_nat (size (products_ inv)))).

Definition getTotalQuantity : M t Z :=
  guarded (
    inv ← get;
    mret (foldl (λ total pair, wrap_int (total + Product.getQuantity pair.2))
                0 (entries inv))).

(** The errors [validateInventory] reports for one product. *)
Definition product_errors (now : time_point) (product : Product.t) : list string :=
  (if Product.getQuantity product <? 0
   then ["Product " +:+ Product.id_ product +:+ " has negative quantity: "
         +:+ to_string_int (Product.getQuantity product)]
   else [])
  ++ (if PrimFloat.ltb (Product.getPrice product) 0%float
      then ["Product " +:+ Product.id_ product +:+ " has negative price: $"
            +:+ to_string_double (Product.getPrice product)]
      else [])
  ++ (if Product.isExpired now product
      then ["Product " +:+ Product.id_ product +:+ " (" +:+ Product.name_ product
            +:+ ") has expired: " +:+ Product.getExpiryInfo now product]
      else []).

Definition validateInventory (now : time_point) : M t (list string) :=
  guarded (inv ← get; mret ((entries inv).*2 ≫= product_errors now)).

(** The text of [checkAndSendLowStockAlerts]; [getThreshold] is read from
    the inventory as it is when the text is built. *)
Definition low_stock_report (inv : t) (low_stock_products : list Product.t) : string :=
  "LOW STOCK ALERT: " +:+ pretty (N.of_nat (length low_stock_products))
    +:+ " products are low in stock:" +:+ newline
    +:+ String.concat ""
          ((λ product,
              "- " +:+ Product.name_ product +:+ " (ID: " +:+ Product.id_ product
                +:+ ") - Current: " +:+ to_string_int (Product.getQuantity product)
                +:+ ", Threshold: "
                +:+ to_string_int (getThreshold (Product.id_ product) inv)
                +:+ newline) <$> low_stock_products).

Definition checkAndSendLowStockAlerts : M t unit :=
  low_stock_products ← getLowStockProducts;
  if bool_decide (low_stock_products = []) then mret tt
  else
    inv ← get;
    sendAlert (low_stock_report inv low_stock_products).



End Inventory.

(** ** Order.hpp, Order.cpp *)

Record OrderItem : Type := MakeOrderItem {
  product_id : string;
  quantity : Z;
  unit_price : float
}.

Definition getTotalPrice (item : OrderItem) : float :=
  PrimFloat.mul (double_of_int (quantity item)) (unit_price item).

Inductive OrderStatus : Type :=
| PENDING | PROCESSING | CONFIRMED | SHIPPED | DELIVERED | CANCELLED | FAILED.

#[export] Instance OrderStatus_eq_dec : EqDecision OrderStatus.
Proof. solve_decision. Defined.

Definition orderStatusToString (status : OrderStatus) : string :=
  match status with
  | PENDING => "PENDING"
  | PROCESSING => "PROCESSING"
  | CONFIRMED => "CONFIRMED"
  | SHIPPED => "SHIPPED"
  | DELIVERED => "DELIVERED"
  | CANCELLED => "CANCELLED"
  | FAILED => "FAILED"
  end.

Module Order.

Record t : Type := Make {
  order_id_ : string;
  customer_id_ : string;
  items_ : list OrderItem;
  status_ : OrderStatus;
  order_date_ : time_point;
  processed_date_ : time_point;
  total_amount_ : float;
  notes_ : string;
  order_mutex_ : bool;
  processing_flag_ : bool;
  error_message_ : string
}.

Definition with_items (l : list OrderItem) (o : t) : t :=
  Make (order_id_ o) (customer_id_ o) l (status_ o) (order_date_ o)
       (processed_date_ o) (total_amount_ o) (notes_ o) (order_mutex_ o)
       (processing_flag_ o) (error_message_ o).

Definition with_status (s : OrderStatus) (o : t) : t :=
  Make (order_id_ o) (customer_id_ o) (items_ o) s (order_date_ o)
       (processed_date_ o) (total_amount_ o) (notes_ o) (order_mutex_ o)
       (processing_flag_ o) (error_message_ o).

Definition with_processed_date (d : time_point) (o : t) : t :=
  Make (order_id_ o) (customer_id_ o) (items_ o) (status_ o) (order_date_ o)
       d (total_amount_ o) (notes_ o) (order_mutex_ o)
       (processing_flag_ o) (error_message_ o).

Definition with_total (x : float) (o : t) : t :=
  Make (order_id_ o) (customer_id_ o) (items_ o) (status_ o) (order_date_ o)
       (processed_date_ o) x (notes_ o) (order_mutex_ o)
       (processing_flag_ o) (error_message_ o).

Definition with_notes (n : string) (o : t) : t :=
  Make (order_id_ o) (customer_id_ o) (items_ o) (status_ o) (order_date_ o)
       (processed_date_ o) (total_amount_ o) n (order_mutex_ o)
       (processing_flag_ o) (error_message_ o).

Definition with_mutex (b : bool) (o : t) : t :=
  Make (order_id_ o) (customer_id_ o) (items_ o) (status_ o) (order_date_ o)
       (processed_date_ o) (total_amount_ o) (notes_ o) b
       (processing_flag_ o) (error_message_ o).

Definition with_flag (b : bool) (o : t) : t :=
  Make (order_id_ o) (customer_id_ o) (items_ o) (status_ o) (order_date_ o)
       (processed_date_ o) (total_amount_ o) (notes_ o) (order_mutex_ o)
       b (error_message_ o).

Definition with_error (e : string) (o : t) : t :=
  Make (order_id_ o) (customer_id_ o) (items_ o) (status_ o) (order_date_ o)
       (processed_date_ o) (total_amount_ o) (notes_ o) (order_mutex_ o)
       (processing_flag_ o) e.

(** [Order(order_id, customer_id)], constructed at time [now]; the
    constructor throws on an empty identifier ([None]). *)
Definition create (now : time_point) (order_id customer_id : string) : option t :=
  if bool_decide (order_id = "") then None
  else if bool_decide (customer_id = "") then None
  else Some (Make order_id customer_id [] PENDING now 0 0%float "" false false "").

Definition guarded {A} (body : M t A) : M t A :=
  lock_guard order_mutex_ with_mutex body.

(** The three helpers below take no lock: their callers hold it. *)
Definition canModify (o : t) : bool := bool_decide (status_ o = PENDING).

Definition setError (message : string) : M t unit :=
  modify (with_error message).

Definition calculateTotal : M t float :=
  guarded (
    o ← get;
    mret (foldl (λ total item, PrimFloat.add total (getTotalPrice item))
                0%float (items_ o))).

Definition updateTotalAmount : M t unit :=
  total ← calculateTotal;
  modify (with_total total).

(** [std::find_if] over [items_] for the line of a product: position and
    line of the first match. *)
Definition find_item (product_id0 : string) (items : list OrderItem)
    : option (nat * OrderItem) :=
  list_find (λ item, product_id item = product_id0) items.

Definition add_quantity (amount : Z) (item : OrderItem) : OrderItem :=
  MakeOrderItem (product_id item) (wrap_int (quantity item + amount))
                (unit_price item).

Definition set_quantity (new_quantity : Z) (item : OrderItem) : OrderItem :=
  MakeOrderItem (product_id item) new_quantity (unit_price item).

(** What [addItem] does to the vector of lines. *)
Definition put_item (product_id0 : string) (quantity0 : Z) (unit_price0 : float)
    (items : list OrderItem) : list OrderItem :=
  match find_item product_id0 items with
  | Some (i, _) => alter (add_quantity quantity0) i items
  | None => items ++ [MakeOrderItem product_id0 quantity0 unit_price0]
  end.

Definition addItem (product_id0 : string) (quantity0 : Z) (unit_price0 : float)
    : M t bool :=
  if bool_decide (product_id0 = "") || (quantity0 <=? 0)
     || PrimFloat.ltb unit_price0 0%float
  then mret false
  else guarded (
    o ← get;
    if negb (canModify o) then mret false
    else
      modify (with_items (put_item product_id0 quantity0 unit_price0 (items_ o)));;
      updateTotalAmount;;
      mret true).

Definition removeItem (product_id0 : string) : M t bool :=
  guarded (
    o ← get;
    if negb (canModify o) then mret false
    else
      match find_item product_id0 (items_ o) with
      | Some (i, _) =>
          modify (with_items (delete i (items_ o)));;
          updateTotalAmount;;
          mret true
      | None => mret false
      end).

Definition updateItemQuantity (product_id0 : string) (new_quantity : Z)
    : M t bool :=
  if new_quantity <=? 0 then removeItem product_id0
  else guarded (
    o ← get;
    if negb (canModify o) then mret false
    else
      match find_item product_id0 (items_ o) with
      | Some (i, _) =>
          modify (with_items (alter (set_quantity new_quantity) i (items_ o)));;
          updateTotalAmount;;
          mret true
      | None => mret false
      end).

Definition getItems : M t (list OrderItem) :=
  guarded (o ← get; mret (items_ o)).

Definition getStatus : M t OrderStatus :=
  guarded (o ← get; mret (status_ o)).

(** The [switch] of [updateStatus]: the transitions it lets through. *)
Definition transition_allowed (status new_status : OrderStatus) : bool :=
  match status with
  | PENDING =>
      negb (bool_decide (new_status ≠ PROCESSING)
            && bool_decide (new_status ≠ CANCELLED)
            && bool_decide (new_status ≠ FAILED))
  | PROCESSING =>
      negb (bool_decide (new_status ≠ CONFIRMED)
            && bool_decide (new_status ≠ FAILED)
            && bool_decide (new_status ≠ CANCELLED))
  | CONFIRMED =>
      negb (bool_decide (new_status ≠ SHIPPED)
            && bool_decide (new_status ≠ CANCELLED))
  | SHIPPED => negb (bool_decide (new_status ≠ DELIVERED))
  | DELIVERED | CANCELLED | FAILED => false
  end.

Definition updateStatus (now : time_point) (new_status : OrderStatus) : M t bool :=
  guarded (
    o ← get;
    if negb (transition_allowed (status_ o) new_status) then mret false
    else
      modify (with_status new_status);;
      (if bool_decide (new_status = CONFIRMED) || bool_decide (new_status = FAILED)
       then modify (with_processed_date now) else mret tt);;
      mret true).

Definition cancelOrder (reason : string) : M t bool :=
  guarded (
    o ← get;
    if bool_decide (status_ o = DELIVERED) || bool_decide (status_ o = SHIPPED)
    then mret false
    else
      modify (with_status CANCELLED);;
      (if negb (bool_decide (reason = "")) then modify (with_notes reason)
       else mret tt);;
      mret true).

(** The calls below work on an order together with the inventory they
    are given by reference. *)
Definition world : Type := t * Inventory.t.

Definition guarded_w {A} (body : M world A) : M world A :=
  lock_guard (λ w : world, order_mutex_ (fst w))
             (λ b (w : world), (with_mutex b (fst w), snd w)) body.

(** The checks [validateOrder] makes for one line whose product is
    stocked, appended to [errors]. *)
Definition check_item (now : time_point) (item : OrderItem) (product : Product.t)
    (errors : list string) : list string :=
  let errors :=
    if Product.getQuantity product <? quantity item
    then errors ++ ["Insufficient quantity for product " +:+ product_id item
                    +:+ ": requested " +:+ to_string_int (quantity item)
                    +:+ ", available "
                    +:+ to_string_int (Product.getQuantity product)]
    else errors in
  let errors :=
    if Product.isExpired now product
    then errors ++ ["Product is expired: " +:+ product_id item]
    else errors in
  let price_diff :=
    PrimFloat.abs (PrimFloat.sub (Product.getPrice product) (unit_price item)) in
  let price_tolerance := PrimFloat.mul (Product.getPrice product) 0.05%float in
  if PrimFloat.ltb price_tolerance price_diff
  then errors ++ ["Price mismatch for product " +:+ product_id item
                  +:+ ": order price $" +:+ to_string_double (unit_price item)
                  +:+ ", current price $"
                  +:+ to_string_double (Product.getPrice product)]
  else errors.

Fixpoint validate_items (now : time_point) (items : list OrderItem)
    (errors : list string) : M world (list string) :=
  match items with
  | [] => mret errors
  | item :: rest =>
      product ← on_snd (Inventory.getProduct (product_id item));
      match product with
      | None =>
          validate_items now rest
            (errors ++ ["Product not found: " +:+ product_id item])
      | Some p => validate_items now rest (check_item now item p errors)
      end
  end.

Definition validateOrder (now : time_point) : M world (list string) :=
  guarded_w (
    w ← get;
    match items_ (fst w) with
    | [] => mret ["Order contains no items"]
    | _ => validate_items now (items_ (fst w)) []
    end).

(** [error_stream]: the errors separated by ["; "]. *)
Fixpoint join_errors (errors : list string) : string :=
  match errors with
  | [] => ""
  | [e] => e
  | e :: rest => e +:+ "; " +:+ join_errors rest
  end.

Fixpoint rollback (processed_items : list (string * Z)) : M world unit :=
  match processed_items with
  | [] => mret tt
  | processed :: rest =>
      on_snd (Inventory.addQuantity processed.1 processed.2);;
      rollback rest
  end.

(** The reservation loop of [processOrderInternal]: [true] when every
    line was reserved, [false] after the rollback of a failed one. *)
Fixpoint reserve_items (now : time_point) (items : list OrderItem)
    (processed_items : list (string * Z)) : M world bool :=
  match items with
  | [] => mret true
  | item :: rest =>
      ok ← on_snd (Inventory.removeQuantity (product_id item) (quantity item));
      if negb ok then
        rollback processed_items;;
        on_fst (setError ("Failed to reserve inventory for product: "
                          +:+ product_id item));;
        on_fst (updateStatus now FAILED);;
        mret false
      else
        reserve_items now rest
          (processed_items ++ [(product_id item, quantity item)])
  end.

(** [processOrderInternal] from the validation on (after the status was
    moved to PROCESSING). *)
Definition validate_and_reserve (now : time_point) : M world bool :=
  validation_errors ← validateOrder now;
  if negb (bool_decide (validation_errors = [])) then
    on_fst (setError ("Validation failed: " +:+ join_errors validation_errors));;
    on_fst (updateStatus now FAILED);;
    mret false
  else
    w ← get;
    reserved ← reserve_items now (items_ (fst w)) [];
    if negb reserved then mret false
    else
      on_fst (updateStatus now CONFIRMED);;
      mret true.

Definition processOrderInternal (now : time_point) : M world bool :=
  started ← guarded_w (
    updated ← on_fst (updateStatus now PROCESSING);
    if negb updated then
      on_fst (setError "Cannot process order in current status");;
      mret false
    else mret true);
  if negb started then mret false
  else validate_and_reserve now.

Definition processOrder (now : time_point) : M world bool :=
  w ← get;
  if processing_flag_ (fst w) then
    on_fst (setError "Order is already being processed");;
    mret false
  else
    on_fst (modify (with_flag true));;
    result ← processOrderInternal now;
    on_fst (modify (with_flag false));;
    mret result.


Definition getItem (product_id0 : string) : M t (option OrderItem) :=
  guarded (o ← get; mret (snd <$> find_item product_id0 (items_ o))).

Definition getTotalAmount : M t float :=
  guarded (o ← get; mret (total_amount_ o)).

Definition setNotes (notes : string) : M t unit :=
  guarded (modify (with_notes notes)).


(** Ticks of [system_clock] per millisecond (nanosecond ticks). *)
Definition ticks_per_millisecond : Z := 10 ^ 6.

(** [processed_date_] still at the epoch means: not processed yet. *)
Definition getProcessingDuration : M t Z :=
  guarded (
    o ← get;
    if bool_decide (processed_date_ o = 0) then mret (-1)
    else
      let duration := wrap_i64 (processed_date_ o - order_date_ o) in
      mret (Z.quot duration ticks_per_millisecond)).

End Order.

(** ** OrderManager (Order.hpp, Order.cpp) *)

Module OrderManager.

(** [orders_] owns the orders; an [Order*] the manager hands out is known
    by the key of the order. The counters are [std::atomic<int>]. *)
Record t : Type := Make {
  orders_ : gmap string Order.t;
  orders_mutex_ : bool;
  total_orders_processed_ : Z;
  successful_orders_ : Z;
  failed_orders_ : Z
}.

Definition with_orders (m : gmap string Order.t) (mgr : t) : t :=
  Make m (orders_mutex_ mgr) (total_orders_processed_ mgr)
       (successful_orders_ mgr) (failed_orders_ mgr).

Definition with_mutex (b : bool) (mgr : t) : t :=
  Make (orders_ mgr) b (total_orders_processed_ mgr)
       (successful_orders_ mgr) (failed_orders_ mgr).

Definition with_counters (total successful failed : Z) (mgr : t) : t :=
  Make (orders_ mgr) (orders_mutex_ mgr) total successful failed.

Definition guarded {A} (body : M t A) : M t A :=
  lock_guard orders_mutex_ with_mutex body.

(** [OrderManager()]. *)
Definition create : t := Make ∅ false 0 0 0.

(** [inr None] is [nullptr]; the constructor of [Order] is reached only
    for a new identifier, and what it throws leaves the manager. *)
Definition createOrder (now : time_point) (order_id customer_id : string)
    : M t (exception + option string) :=
  guarded (
    mgr ← get;
    match orders_ mgr !! order_id with
    | Some _ => mret (inr None)
    | None =>
        match Order.create now order_id customer_id with
        | None =>
            mret (inl (invalid_argument
                         (if bool_decide (order_id = "")
                          then "Order ID cannot be empty"
                          else "Customer ID cannot be empty")))
        | Some order =>
            modify (with_orders (<[order_id := order]> (orders_ mgr)));;
            mret (inr (Some order_id))
        end
    end).

(** The order a returned pointer points to, [None] for [nullptr]. *)
Definition getOrder (order_id : string) : M t (option Order.t) :=
  guarded (mgr ← get; mret (orders_ mgr !! order_id)).

Definition getAllOrders : M t (list string) :=
  guarded (mgr ← get; mret ((map_to_list (orders_ mgr)).*1)).

(** A call on the order an entry of [orders_] points to. *)
Definition order_call {A} (order_id : string) (order : Order.t)
    (call : M Order.t A) : M t A :=
  λ mgr, match call order with
         | Returned a order' =>
             Returned a (with_orders (<[order_id := order']> (orders_ mgr)) mgr)
         | Deadlock => Deadlock
         end.

Fixpoint collect_by_status (status : OrderStatus)
    (entries : list (string * Order.t)) (result : list string)
    : M t (list string) :=
  match entries with
  | [] => mret result
  | entry :: rest =>
      order_status ← order_call entry.1 entry.2 Order.getStatus;
      collect_by_status status rest
        (if bool_decide (order_status = status) then result ++ [entry.1] else result)
  end.

Definition getOrdersByStatus (status : OrderStatus) : M t (list string) :=
  guarded (
    mgr ← get;
    collect_by_status status (map_to_list (orders_ mgr)) []).

Definition getOrdersByCustomer (customer_id : string) : M t (list string) :=
  guarded (
    mgr ← get;
    mret ((filter (λ pair, Order.customer_id_ pair.2 = customer_id)
                  (map_to_list (orders_ mgr))).*1)).

Definition removeOrder (order_id : string) : M t bool :=
  guarded (
    mgr ← get;
    match orders_ mgr !! order_id with
    | None => mret false
    | Some _ =>
        modify (with_orders (delete order_id (orders_ mgr)));;
        mret true
    end).

Definition getTotalOrderCount : M t N :=
  guarded (mgr ← get; mret (N.of_nat (size (orders_ mgr)))).

Fixpoint clear_completed (entries : list (string * Order.t)) (cleared_count : Z)
    : M t Z :=
  match entries with
  | [] => mret cleared_count
  | entry :: rest =>
      status ← order_call entry.1 entry.2 Order.getStatus;
      if bool_decide (status = DELIVERED) || bool_decide (status = CANCELLED)
      then
        mgr ← get;
        modify (with_orders (delete entry.1 (orders_ mgr)));;
        clear_completed rest (wrap_int (cleared_count + 1))
      else clear_completed rest cleared_count
  end.

Definition clearCompletedOrders : M t Z :=
  guarded (
    mgr ← get;
    clear_completed (map_to_list (orders_ mgr)) 0).

(** [fetch_add(1)] on the atomic counters; atomic integers wrap. *)
Definition updateStatistics (success : bool) : M t unit :=
  modify (λ mgr,
    let total := wrap_int (total_orders_processed_ mgr + 1) in
    if success
    then with_counters total (wrap_int (successful_orders_ mgr + 1))
                       (failed_orders_ mgr) mgr
    else with_counters total (successful_orders_ mgr)
                       (wrap_int (failed_orders_ mgr + 1)) mgr).

End OrderManager.

(** * Vocabulary of the properties *)

Module InventorySpec.
Import Inventory.

(** The inventory a successful [removeQuantity] leaves. *)
Definition removed (product_id : string) (amount : Z) (p : Product.t) (inv : t) : t :=
  let p' := Product.with_quantity (wrap_int (Product.quantity_ p - amount)) p in
  let inv1 := with_products (<[product_id := p']> (products_ inv)) inv in
  let threshold := getThreshold product_id inv1 in
  if Product.quantity_ p' <? threshold
  then with_delivered
         (delivered_ inv
            ++ ((λ cb, (cb, low_stock_alert p' product_id threshold))
                  <$> alert_callbacks_ inv)) inv1
  else inv1.

(** The inventory a successful [addQuantity] leaves. *)
Definition added (product_id : string) (amount : Z) (p : Product.t) (inv : t) : t :=
  with_products
    (<[product_id := Product.with_quantity (wrap_int (Product.quantity_ p + amount)) p]>
       (products_ inv)) inv.

(** The threshold that applies to a product: the override of its
    category when there is one, the default of the store otherwise. *)
Definition effective_threshold (inv : t) (p : Product.t) : Z :=
  default (default_low_stock_threshold_ inv)
          (category_thresholds_ inv !! Product.category_ p).

(** Sequences of quantity updates. *)
Inductive update : Type :=
| Add (product_id : string) (amount : Z)
| Remove (product_id : string) (amount : Z).

Definition run_update (u : update) : M t bool :=
  match u with
  | Add product_id amount => addQuantity product_id amount
  | Remove product_id amount => removeQuantity product_id amount
  end.

Fixpoint run_updates (us : list update) : M t unit :=
  match us with
  | [] => mret tt
  | u :: rest => run_update u;; run_updates rest
  end.

(** No [addQuantity] of the sequence, run from [inv], takes a quantity
    above [INT_MAX]. *)
Fixpoint within_int (us : list update) (inv : t) : Prop :=
  match us with
  | [] => True
  | u :: rest =>
      match u with
      | Add product_id amount =>
          ∀ p, products_ inv !! product_id = Some p →
               Product.quantity_ p + amount ≤ INT_MAX
      | Remove _ _ => True
      end
      ∧ ∀ ok inv', run_update u inv = Returned ok inv' → within_int rest inv'
  end.

(** Every stocked quantity is a non-negative [int]. *)
Definition stock_ok (inv : t) : Prop :=
  ∀ product_id p, products_ inv !! product_id = Some p →
                  0 ≤ Product.quantity_ p ≤ INT_MAX.

(** The sum of the quantities of a list of entries, without wrap-around. *)
Definition quantity_sum (l : list (string * Product.t)) : Z :=
  foldr (λ pair s, Product.quantity_ pair.2 + s) 0 l.

End InventorySpec.

Module OrderSpec.
Import Order.

(** The order a successful [updateStatus] leaves. *)
Definition moved (now : time_point) (new_status : OrderStatus) (o : t) : t :=
  let o1 := with_status new_status o in
  if bool_decide (new_status = CONFIRMED) || bool_decide (new_status = FAILED)
  then with_processed_date now o1 else o1.

(** The successors [updateStatus] accepts. *)
Definition successors (status : OrderStatus) : list OrderStatus :=
  match status with
  | PENDING => [PROCESSING; CANCELLED; FAILED]
  | PROCESSING => [CONFIRMED; FAILED; CANCELLED]
  | CONFIRMED => [SHIPPED; CANCELLED]
  | SHIPPED => [DELIVERED]
  | DELIVERED | CANCELLED | FAILED => []
  end.

(** The successors of section 4.3 of the specification. *)
Definition claimed_successors (status : OrderStatus) : list OrderStatus :=
  match status with
  | PENDING => [PROCESSING]
  | PROCESSING => [CONFIRMED; FAILED; CANCELLED]
  | CONFIRMED => [SHIPPED; CANCELLED]
  | SHIPPED => [DELIVERED]
  | DELIVERED | CANCELLED | FAILED => []
  end.

Definition terminal (status : OrderStatus) : Prop :=
  status ∈ [DELIVERED; CANCELLED; FAILED].

End OrderSpec.

Module ValidationSpec.
Import Order.

(** The absolute difference between the recorded unit price and the
    current price is at most 5% of the current price; no comparison with a
    NaN holds. *)
Definition within_tolerance (price unit_price0 : float) : Prop :=
  PrimFloat.leb (PrimFloat.abs (PrimFloat.sub price unit_price0))
                (PrimFloat.mul price 0.05%float) = true.

(** The four checks on a line. *)
Definition item_accepted (now : time_point) (inv : Inventory.t) (item : OrderItem)
    : Prop :=
  ∃ p, Inventory.products_ inv !! product_id item = Some p
       ∧ quantity item ≤ Product.quantity_ p
       ∧ Product.isExpired now p = false
       ∧ within_tolerance (Product.price_ p) (unit_price item).

(** The errors [validateOrder] reports for one line. *)
Definition item_errors (now : time_point) (inv : Inventory.t) (item : OrderItem)
    : list string :=
  match Inventory.products_ inv !! product_id item with
  | None => ["Product not found: " +:+ product_id item]
  | Some p => check_item now item p []
  end.

End ValidationSpec.

Module ReservationSpec.
Import Order.

(** What one compensating [addQuantity] does to the map of products. *)
Definition put_back (product_id0 : string) (amount : Z)
    (m : gmap string Product.t) : gmap string Product.t :=
  match m !! product_id0 with
  | Some p =>
      if amount <? 0 then m
      else <[product_id0 :=
               Product.with_quantity (wrap_int (Product.quantity_ p + amount)) p]> m
  | None => m
  end.

(** What the rollback loop does to the map of products. *)
Definition restore (processed_items : list (string * Z))
    (m : gmap string Product.t) : gmap string Product.t :=
  foldl (λ m processed, put_back processed.1 processed.2 m) m processed_items.

(** Every stocked quantity is an [int]. *)
Definition stock_int (m : gmap string Product.t) : Prop :=
  ∀ product_id0 p, m !! product_id0 = Some p → in_int (Product.quantity_ p).

End ReservationSpec.

Module ProcessingSpec.
Import Order.

(** An attempt that won the flag runs with the flag set. *)
Definition claimed (w : world) : world := (with_flag true w.1, w.2).

(** The winner clears the flag when its attempt is over. *)
Definition released (r : outcome world bool) : outcome world bool :=
  match r with
  | Returned result w => Returned result (with_flag false w.1, w.2)
  | Deadlock => Deadlock
  end.

End ProcessingSpec.

Module ApiSpec.

(** The calls of [Inventory] that change it. *)
Inductive call : Type :=
| AddProduct (product : Product.t)
| RemoveProduct (product_id : string)
| UpdateQuantity (product_id : string) (new_quantity : Z)
| AddQuantity (product_id : string) (amount : Z)
| RemoveQuantity (product_id : string) (amount : Z)
| SetCategoryThreshold (category : string) (threshold : Z)
| RegisterAlertCallback (cb : Inventory.callback)
| CheckAndSendLowStockAlerts.

Definition run_call (c : call) : M Inventory.t unit :=
  match c with
  | AddProduct product => Inventory.addProduct product;; mret tt
  | RemoveProduct product_id => Inventory.removeProduct product_id;; mret tt
  | UpdateQuantity product_id new_quantity =>
      Inventory.updateQuantity product_id new_quantity;; mret tt
  | AddQuantity product_id amount =>
      Inventory.addQuantity product_id amount;; mret tt
  | RemoveQuantity product_id amount =>
      Inventory.removeQuantity product_id amount;; mret tt
  | SetCategoryThreshold category threshold =>
      Inventory.setCategoryThreshold category threshold
  | RegisterAlertCallback cb => Inventory.registerAlertCallback cb
  | CheckAndSendLowStockAlerts => Inventory.checkAndSendLowStockAlerts
  end.

Fixpoint run_calls (cs : list call) : M Inventory.t unit :=
  match cs with
  | [] => mret tt
  | c :: rest => run_call c;; run_calls rest
  end.

(** The quantities passed are [int]s, a product passed went through the
    constructor (its quantity is not negative), and no [addQuantity] takes
    a quantity above [INT_MAX]. *)
Definition call_fits (c : call) (inv : Inventory.t) : Prop :=
  match c with
  | AddProduct product => 0 ≤ Product.quantity_ product ≤ INT_MAX
  | UpdateQuantity _ new_quantity => new_quantity ≤ INT_MAX
  | AddQuantity product_id amount =>
      ∀ p, Inventory.products_ inv !! product_id = Some p →
           Product.quantity_ p + amount ≤ INT_MAX
  | _ => True
  end.

Fixpoint calls_fit (cs : list call) (inv : Inventory.t) : Prop :=
  match cs with
  | [] => True
  | c :: rest =>
      call_fits c inv
      ∧ ∀ inv', run_call c inv = Returned tt inv' → calls_fit rest inv'
  end.

(** Every product is filed under its own identifier. *)
Definition keyed_by_id (inv : Inventory.t) : Prop :=
  ∀ product_id p,
    Inventory.products_ inv !! product_id = Some p → Product.id_ p = product_id.

(** What the calls keep: the mutex is free between calls, the quantities
    are non-negative [int]s, the products are filed under their
    identifiers. *)
Definition sound (inv : Inventory.t) : Prop :=
  Inventory.inventory_mutex_ inv = false ∧ InventorySpec.stock_ok inv ∧ keyed_by_id inv.

End ApiSpec.

Module StatusSpec.

(** The calls that move the status of an order. *)
Inductive status_call : Type :=
| UpdateStatus (new_status : OrderStatus)
| CancelOrder (reason : string).

Definition run_status_call (now : time_point) (c : status_call) : M Order.t bool :=
  match c with
  | UpdateStatus new_status => Order.updateStatus now new_status
  | CancelOrder reason => Order.cancelOrder reason
  end.

(** The calls in turn, with what each returned. *)
Fixpoint run_status_calls (now : time_point) (cs : list status_call)
    : M Order.t (list bool) :=
  match cs with
  | [] => mret []
  | c :: rest =>
      ok ← run_status_call now c;
      oks ← run_status_calls now rest;
      mret (ok :: oks)
  end.

(** How far a status is along the life of an order. *)
Definition rank (status : OrderStatus) : nat :=
  match status with
  | PENDING => 0
  | PROCESSING => 1
  | CONFIRMED => 2
  | SHIPPED => 3
  | DELIVERED | CANCELLED | FAILED => 4
  end.

End StatusSpec.

Module ManagerSpec.

(** [updateStatistics] for each result of a batch, in turn. *)
Fixpoint record_results (results : list bool) : M OrderManager.t unit :=
  match results with
  | [] => mret tt
  | success :: rest => OrderManager.updateStatistics success;; record_results rest
  end.

(** The statuses [clearCompletedOrders] removes. *)
Definition completed (status : OrderStatus) : Prop :=
  status = DELIVERED ∨ status = CANCELLED.

(** A manager of three orders: one delivered, one failed, one pending. *)
Definition three_orders : OrderManager.t :=
  OrderManager.Make
    (<[ "O3" := Order.Make "O3" "C2" [] PENDING 0 0 0%float "" false false "" ]>
       (<[ "O2" := Order.Make "O2" "C1" [] FAILED 0 5 0%float "" false false "x" ]>
          {[ "O1" := Order.Make "O1" "C1" [] DELIVERED 0 0 0%float "" false false "" ]}))
    false 0 0 0.

(** The same manager while a call holds the mutex of its pending order. *)
Definition three_orders_one_busy : OrderManager.t :=
  OrderManager.with_orders
    (<[ "O3" := Order.with_mutex true
                  (Order.Make "O3" "C2" [] PENDING 0 0 0%float "" false false "") ]>
       (OrderManager.orders_ three_orders))
    three_orders.

(** No call holds the mutex of an order of the manager. *)
Definition orders_at_rest (mgr : OrderManager.t) : Prop :=
  map_Forall (λ _ order, Order.order_mutex_ order = false)
             (OrderManager.orders_ mgr).

End ManagerSpec.

(** ** Sample objects *)


Definition widget (quantity0 : Z) : Product.t :=
  Product.Make "P1" "Widget" "Tools" 5%float quantity0 0 None.

Definition gadget (quantity0 : Z) : Product.t :=
  Product.Make "P2" "Gadget" "Toys" 3%float quantity0 0 None.

(** One product, no category override, no callback. *)
Definition one_widget : Inventory.t :=
  Inventory.Make {[ "P1" := widget 1 ]} false 10 ∅ [] [].

(** Two products, an override for the category of the second, two
    registered callbacks. *)
Definition shop : Inventory.t :=
  Inventory.Make (<[ "P2" := gadget 1 ]> {[ "P1" := widget 5 ]}) false 10
                 {[ "Toys" := 1 ]} [7%nat; 8%nat] [].

(** A perishable product that expires ten hours after the epoch. *)
Definition milk : PerishableProduct.members :=
  PerishableProduct.Members (10 * ticks_per_hour) "chilled" 4%float.

(** A shop whose only product is the milk, with one registered callback. *)
Definition dairy : Inventory.t :=
  Inventory.Make {[ "P3" := Product.Make "P3" "Milk" "Dairy" 2%float 4 0 (Some milk) ]}
                 false 10 ∅ [1%nat] [].

Definition new_order : Order.t :=
  Order.Make "O1" "C1" [] PENDING 0 0 0%float "" false false "".

Definition one_line_order : Order.t :=
  Order.with_items [MakeOrderItem "P1" 2 5%float] new_order.

(** The order in which [addItem("P1", 2, 5.00)] on the new order calls
    [updateTotalAmount]: the mutex taken, the line appended. *)
Definition busy_order : Order.t :=
  Order.with_items (Order.put_item "P1" 2 5%float (Order.items_ new_order))
                   (Order.with_mutex true new_order).


(** * Properties *)

(** ** Machine arithmetic *)

Lemma wrap_int_id z : in_int z → wrap_int z = z.
Proof.
  unfold in_int, INT_MIN, INT_MAX, wrap_int. intros Hz.
  rewrite Z.mod_small; lia.
Qed.

Lemma wrap_int_add_l x y : wrap_int (wrap_int x + y) = wrap_int (x + y).
Proof.
  unfold wrap_int.
  replace ((x + 2 ^ 31) mod 2 ^ 32 - 2 ^ 31 + y + 2 ^ 31)
    with ((x + 2 ^ 31) mod 2 ^ 32 + y) by lia.
  rewrite Zplus_mod_idemp_l. do 2 f_equal. lia.
Qed.

Lemma wrap_i64_id z : - 2 ^ 63 ≤ z < 2 ^ 63 → wrap_i64 z = z.
Proof. unfold wrap_i64. intros Hz. rewrite Z.mod_small; lia. Qed.

(** ** Running calls *)

Lemma run_bind {S A B} (m : M S A) (k : A → M S B) (s : S) :
  (m ≫= k) s = match m s with
               | Returned a s' => k a s'
               | Deadlock => Deadlock
               end.
Proof. reflexivity. Qed.

Ltac run :=
  unfold Inventory.guarded, Order.guarded, Order.guarded_w, lock_guard, lock,
    unlock, modify, get, on_fst, on_snd, mbind, call_bind, mret, call_ret;
  simpl.

(** ** Inventory *)

Module InventoryFacts.
Import Inventory.
Import InventorySpec.

Lemma removeQuantity_run product_id amount inv :
  inventory_mutex_ inv = false →
  removeQuantity product_id amount inv =
    match products_ inv !! product_id with
    | Some p =>
        if (amount <? 0) || (Product.quantity_ p <? amount)
        then Returned false inv
        else Returned true (removed product_id amount p inv)
    | None => Returned false inv
    end.
Proof.
  intros Hfree. unfold removeQuantity, removed.
  destruct inv as [ps mu d ct cbs log]; simpl in *; subst mu.
  destruct (amount <? 0) eqn:Hneg.
  - simpl. destruct (ps !! product_id); reflexivity.
  - run. destruct (ps !! product_id) as [p|] eqn:Hp; simpl; [|reflexivity].
    unfold Product.getQuantity, Product.removeQuantity. rewrite Hneg.
    destruct (Product.quantity_ p <? amount) eqn:Hq; simpl; [reflexivity|].
    unfold Product.getQuantity, sendAlert, modify, getThreshold. simpl.
    match goal with |- context [if ?c then _ else _] => destruct c end;
      reflexivity.
Qed.

Lemma addQuantity_run product_id amount inv :
  inventory_mutex_ inv = false →
  addQuantity product_id amount inv =
    match products_ inv !! product_id with
    | Some p =>
        if amount <? 0 then Returned false inv
        else Returned true (added product_id amount p inv)
    | None => Returned false inv
    end.
Proof.
  intros Hfree. unfold addQuantity, added.
  destruct inv as [ps mu d ct cbs log]; simpl in *; subst mu.
  destruct (amount <? 0) eqn:Hneg.
  - simpl. destruct (ps !! product_id); reflexivity.
  - run. destruct (ps !! product_id) as [p|] eqn:Hp; simpl; [|reflexivity].
    unfold Product.addQuantity. rewrite Hneg. reflexivity.
Qed.

Lemma getProduct_run product_id inv :
  inventory_mutex_ inv = false →
  getProduct product_id inv = Returned (products_ inv !! product_id) inv.
Proof.
  intros Hfree. destruct inv as [ps mu d ct cbs log]; simpl in *; subst mu.
  reflexivity.
Qed.

Lemma removed_mutex product_id amount p inv :
  inventory_mutex_ (removed product_id amount p inv) = inventory_mutex_ inv.
Proof. unfold removed. simpl. case_match; reflexivity. Qed.

Lemma removed_products product_id amount p inv :
  products_ (removed product_id amount p inv) =
  <[product_id := Product.with_quantity (wrap_int (Product.quantity_ p - amount)) p]>
    (products_ inv).
Proof. unfold removed. simpl. case_match; reflexivity. Qed.

Lemma getThreshold_stocked product_id inv p :
  products_ inv !! product_id = Some p →
  getThreshold product_id inv = effective_threshold inv p.
Proof.
  intros Hp. unfold getThreshold, effective_threshold. rewrite Hp.
  destruct (category_thresholds_ inv !! Product.category_ p); reflexivity.
Qed.

Lemma getThreshold_unknown product_id inv :
  products_ inv !! product_id = None →
  getThreshold product_id inv = default_low_stock_threshold_ inv.
Proof. intros Hp. unfold getThreshold. rewrite Hp. reflexivity. Qed.

Lemma run_update_ok u inv :
  inventory_mutex_ inv = false → stock_ok inv →
  match u with
  | Add product_id amount =>
      ∀ p, products_ inv !! product_id = Some p →
           Product.quantity_ p + amount ≤ INT_MAX
  | Remove _ _ => True
  end →
  ∃ ok inv', run_update u inv = Returned ok inv'
             ∧ inventory_mutex_ inv' = false ∧ stock_ok inv'.
Proof.
  intros Hfree Hok Hfit. destruct u as [pid a | pid a]; simpl.
  - rewrite addQuantity_run by done.
    destruct (products_ inv !! pid) as [p|] eqn:Hp; [|by eauto].
    destruct (a <? 0) eqn:Ha; [by eauto|].
    eexists _, _. split; [done|]. split; [done|].
    intros pid' p'. unfold added. simpl.
    rewrite lookup_insert. case_decide as Hpid.
    + intros [= <-]. simpl. specialize (Hok _ _ Hp). specialize (Hfit _ eq_refl).
      rewrite wrap_int_id; unfold in_int, INT_MIN, INT_MAX in *; lia.
    + apply Hok.
  - rewrite removeQuantity_run by done.
    destruct (products_ inv !! pid) as [p|] eqn:Hp; [|by eauto].
    destruct ((a <? 0) || (Product.quantity_ p <? a)) eqn:Ha; [by eauto|].
    apply orb_false_iff in Ha as [Ha1 Ha2].
    eexists _, _. split; [done|]. split; [by rewrite removed_mutex|].
    intros pid' p'. rewrite removed_products.
    rewrite lookup_insert. case_decide as Hpid.
    + intros [= <-]. simpl. specialize (Hok _ _ Hp).
      rewrite wrap_int_id; unfold in_int, INT_MIN, INT_MAX in *; lia.
    + apply Hok.
Qed.

End InventoryFacts.

(** C6. [Inventory::removeQuantity] succeeds exactly when the product is
    stocked and the amount is between 0 and the stocked quantity. A
    successful call leaves the quantity lower by the amount and calls
    every registered alert callback, in registration order, with the
    low-stock message of the product exactly when the quantity it leaves
    is strictly below the effective threshold (the override of the
    product's category when there is one, the default of the store
    otherwise), and calls none otherwise; a call that returns [false]
    calls no callback and changes nothing. *)
Theorem removeQuantity_alerts_below_threshold product_id amount inv :
  Inventory.inventory_mutex_ inv = false →
  ∃ ok inv',
    Inventory.removeQuantity product_id amount inv = Returned ok inv'
    ∧ (ok = true ↔
       ∃ p, Inventory.products_ inv !! product_id = Some p
            ∧ 0 ≤ amount ≤ Product.quantity_ p)
    ∧ (ok = false → inv' = inv)
    ∧ (ok = true →
       ∃ p p',
         Inventory.products_ inv !! product_id = Some p
         ∧ Inventory.products_ inv' !! product_id = Some p'
         ∧ p' = Product.with_quantity (wrap_int (Product.quantity_ p - amount)) p
         ∧ let threshold := InventorySpec.effective_threshold inv p' in
           let message :=
             "LOW STOCK ALERT: Product '" +:+ Product.name_ p +:+ "' (ID: "
               +:+ product_id +:+ ") is now at "
               +:+ to_string_int (Product.quantity_ p')
               +:+ " units (threshold: " +:+ to_string_int threshold +:+ ")" in
           (Product.quantity_ p' < threshold →
            Inventory.delivered_ inv' =
              Inventory.delivered_ inv
                ++ ((λ cb, (cb, message)) <$> Inventory.alert_callbacks_ inv))
           ∧ (threshold ≤ Product.quantity_ p' →
              Inventory.delivered_ inv' = Inventory.delivered_ inv)).
Proof.
  intros Hfree. rewrite InventoryFacts.removeQuantity_run by done.
  destruct (Inventory.products_ inv !! product_id) as [p|] eqn:Hp.
  2: { eexists _, _. split_and!; [done| |done|done].
       split; [done|]. by intros (? & ? & _). }
  destruct ((amount <? 0) || (Product.quantity_ p <? amount)) eqn:Ha.
  { eexists _, _. split_and!; [done| |done|done].
    split; [done|]. intros (p0 & [= <-] & Hrange).
    apply orb_true_iff in Ha as [Ha|Ha]; apply Z.ltb_lt in Ha; lia. }
  apply orb_false_iff in Ha as [Ha1 Ha2].
  apply Z.ltb_ge in Ha1, Ha2.
  eexists _, _. split_and!; [done| |done|].
  { split; [|done]. intros _. exists p. split; [done|lia]. }
  intros _. eexists p, _. split_and!; [done| |reflexivity|].
  - rewrite InventoryFacts.removed_products. apply lookup_insert_eq.
  - cbv zeta. cbn [Product.quantity_ Product.with_quantity Product.name_].
    unfold InventorySpec.removed.
    rewrite (InventoryFacts.getThreshold_stocked _ _
               (Product.with_quantity (wrap_int (Product.quantity_ p - amount)) p))
      by (simpl; apply lookup_insert_eq).
    change (InventorySpec.effective_threshold (Inventory.with_products _ inv))
      with (InventorySpec.effective_threshold inv).
    simpl. split; intros Hcmp.
    + apply Z.ltb_lt in Hcmp. rewrite Hcmp. reflexivity.
    + apply Z.ltb_ge in Hcmp. rewrite Hcmp. simpl. by rewrite ?app_nil_r.
Qed.

(** C2, as stated, fails: one [addQuantity] whose sum passes [INT_MAX]
    leaves a negative quantity. *)
Lemma addQuantity_overflow_negative :
  InventorySpec.stock_ok one_widget
  ∧ ∃ inv',
      InventorySpec.run_updates [InventorySpec.Add "P1" 2147483647] one_widget
        = Returned tt inv'
      ∧ Product.quantity_ <$> Inventory.products_ inv' !! "P1" = Some (-2147483648).
Proof.
  split.
  - intros pid p Hp. simpl in Hp.
    apply lookup_singleton_Some in Hp as [<- <-]. simpl. unfold INT_MAX. lia.
  - eexists. split; [vm_compute; reflexivity|]. vm_compute. reflexivity.
Qed.

(** C2 (amended). From an inventory whose quantities are non-negative
    [int]s, after every sequence of [addQuantity] and [removeQuantity]
    calls in which no [addQuantity] takes a quantity above [INT_MAX], no
    product has a negative quantity; and a [removeQuantity] whose amount is
    negative or exceeds the current quantity of the product returns
    [false] and leaves the inventory as it was. *)
Theorem quantity_never_negative us inv :
  Inventory.inventory_mutex_ inv = false →
  InventorySpec.stock_ok inv →
  InventorySpec.within_int us inv →
  ∃ inv',
    InventorySpec.run_updates us inv = Returned tt inv'
    ∧ (∀ product_id p,
         Inventory.products_ inv' !! product_id = Some p → 0 ≤ Product.quantity_ p)
    ∧ (∀ product_id amount p,
         Inventory.products_ inv' !! product_id = Some p →
         amount < 0 ∨ Product.quantity_ p < amount →
         Inventory.removeQuantity product_id amount inv' = Returned false inv').
Proof.
  revert inv. induction us as [|u us IH]; intros inv Hfree Hok Hfit.
  - exists inv. split_and!; [reflexivity| |].
    + intros pid p Hp. apply (Hok _ _ Hp).
    + intros pid a p Hp Ha. rewrite InventoryFacts.removeQuantity_run, Hp by done.
      destruct Ha as [Ha|Ha].
      * apply Z.ltb_lt in Ha as ->. reflexivity.
      * apply Z.ltb_lt in Ha as ->. by rewrite orb_true_r.
  - destruct Hfit as [Hu Hrest].
    destruct (InventoryFacts.run_update_ok u inv Hfree Hok Hu)
      as (ok & inv1 & Hrun & Hfree1 & Hok1).
    destruct (IH inv1 Hfree1 Hok1 (Hrest _ _ Hrun)) as (inv' & Hrun' & Hpost).
    exists inv'. split; [|exact Hpost].
    simpl. unfold mbind, call_bind. rewrite Hrun. exact Hrun'.
Qed.

(** The amended C2 on three calls, the last of which asks for more than
    is stocked. *)
Lemma quantity_never_negative_witness :
  ∃ inv',
    InventorySpec.run_updates
      [InventorySpec.Add "P1" 3; InventorySpec.Remove "P1" 2;
       InventorySpec.Remove "P1" 10] one_widget = Returned tt inv'
    ∧ (∀ product_id p,
         Inventory.products_ inv' !! product_id = Some p → 0 ≤ Product.quantity_ p)
    ∧ (∀ product_id amount p,
         Inventory.products_ inv' !! product_id = Some p →
         amount < 0 ∨ Product.quantity_ p < amount →
         Inventory.removeQuantity product_id amount inv' = Returned false inv').
Proof.
  apply quantity_never_negative.
  - reflexivity.
  - intros pid p Hp. simpl in Hp.
    apply lookup_singleton_Some in Hp as [<- <-]. simpl. unfold INT_MAX. lia.
  - simpl. split.
    { intros p Hp. apply lookup_singleton_Some in Hp as [_ <-].
      simpl. unfold INT_MAX. lia. }
    intros ok inv1 H1. vm_compute in H1. injection H1 as <- <-.
    split; [exact I|].
    intros ok inv2 H2. vm_compute in H2. injection H2 as <- <-.
    split; [exact I|].
    intros ok inv3 H3. exact I.
Defined.

(** C6 on the removal of the last gadget: the call succeeds, and the
    quantity left, 0, is below the override 1 of its category, so that
    both callbacks get the message. *)
Lemma removeQuantity_alerts_below_threshold_witness :
  ∃ inv',
    Inventory.removeQuantity "P2" 1 shop = Returned true inv'
    ∧ Product.quantity_ <$> Inventory.products_ inv' !! "P2" = Some 0
    ∧ Inventory.delivered_ inv' =
        [(7%nat, "LOW STOCK ALERT: Product 'Gadget' (ID: P2) is now at 0 units (threshold: 1)");
         (8%nat, "LOW STOCK ALERT: Product 'Gadget' (ID: P2) is now at 0 units (threshold: 1)")].
Proof.
  destruct (removeQuantity_alerts_below_threshold "P2" 1 shop eq_refl)
    as (ok & inv' & Hrun & Hiff & _ & Hsucc).
  assert (ok = true) as ->.
  { apply Hiff. exists (gadget 1). split; [reflexivity|simpl; lia]. }
  exists inv'. split; [exact Hrun|].
  destruct (Hsucc eq_refl) as (p & p' & Hp & Hp' & -> & Hlow & _).
  vm_compute in Hp. injection Hp as <-.
  split.
  - rewrite Hp'. reflexivity.
  - rewrite Hlow; vm_compute; reflexivity.
Defined.

(** ** Expiry *)

(** A product that is not expired has as many days left as the whole days
    between the clock and its expiry date. *)
Lemma getDaysUntilExpiry_fresh now p :
  now ≤ PerishableProduct.expiry_date_ p →
  PerishableProduct.expiry_date_ p - now < 2 ^ 63 →
  PerishableProduct.getDaysUntilExpiry now p =
    (PerishableProduct.expiry_date_ p - now) / (24 * ticks_per_hour).
Proof.
  intros Hle Hlt. unfold PerishableProduct.getDaysUntilExpiry.
  set (d := PerishableProduct.expiry_date_ p - now) in *.
  assert (Hh : 0 < ticks_per_hour) by (unfold ticks_per_hour; lia).
  rewrite wrap_i64_id by lia.
  rewrite (Z.quot_div_nonneg d) by lia.
  rewrite Z.quot_div_nonneg by (try apply Z.div_pos; lia).
  rewrite Z.div_div by lia.
  rewrite (Z.mul_comm ticks_per_hour 24).
  apply wrap_int_id. unfold in_int, INT_MIN, INT_MAX. split.
  - transitivity 0; [lia|]. apply Z.div_pos; lia.
  - apply Z.lt_succ_r, Z.div_lt_upper_bound; [lia|].
    unfold ticks_per_hour. lia.
Qed.

(** The sample products are objects the constructors build. *)
Example samples_constructed :
  Product.create 0 "P1" "Widget" "Tools" 5%float 5 = Some (widget 5)
  ∧ Product.create 0 "P2" "Gadget" "Toys" 3%float 1 = Some (gadget 1)
  ∧ Product.perishable_
      <$> Product.create_perishable 0 "P3" "Milk" "Dairy" 2%float 4
            (10 * ticks_per_hour) "chilled" 4%float
    = Some (Some milk).
Proof. split_and!; reflexivity. Qed.

(** [std::to_string] on the numbers of the error messages. *)
Example to_string_samples :
  to_string_int (-42) = "-42"
  ∧ to_string_double 5%float = "5.000000"
  ∧ to_string_double 1299.99%float = "1299.990000"
  ∧ to_string_double 0.0000015%float = "0.000002".
Proof. split_and!; vm_compute; reflexivity. Qed.

(** C9. One hour after the expiry date the product is expired and the
    whole days until expiry, rounded down, are [-1]; [getDaysUntilExpiry]
    answers [0], which is not negative: both divisions round toward
    zero. *)
Theorem getDaysUntilExpiry_expired_within_a_day :
  let now := 11 * ticks_per_hour in
  PerishableProduct.isExpired now milk = true
  ∧ (PerishableProduct.expiry_date_ milk - now) / (24 * ticks_per_hour) = -1
  ∧ PerishableProduct.getDaysUntilExpiry now milk = 0.
Proof. vm_compute. done. Qed.

(** ** Orders *)

Module OrderFacts.
Import Order.
Import OrderSpec.

Lemma order_mutex_free o : order_mutex_ o = false → with_mutex false o = o.
Proof. destruct o; simpl; intros ->; reflexivity. Qed.

Lemma order_mutex_twice b b' o : with_mutex b (with_mutex b' o) = with_mutex b o.
Proof. reflexivity. Qed.

Lemma updateStatus_run now new_status o :
  order_mutex_ o = false →
  updateStatus now new_status o =
    if transition_allowed (status_ o) new_status
    then Returned true (moved now new_status o)
    else Returned false o.
Proof.
  intros Hfree. destruct o; simpl in *; subst. unfold updateStatus, moved. run.
  destruct (transition_allowed _ _); simpl; [|reflexivity].
  destruct (bool_decide (new_status = CONFIRMED) || bool_decide (new_status = FAILED));
    reflexivity.
Qed.

(** A call that takes [order_mutex_] while the mutex is held never
    returns. *)
Lemma updateStatus_held now new_status o :
  order_mutex_ o = true → updateStatus now new_status o = Deadlock.
Proof. intros Hheld. unfold updateStatus. run. by rewrite Hheld. Qed.

Lemma calculateTotal_held o :
  order_mutex_ o = true → calculateTotal o = Deadlock.
Proof. intros Hheld. unfold calculateTotal. run. by rewrite Hheld. Qed.

Lemma updateTotalAmount_held o :
  order_mutex_ o = true → updateTotalAmount o = Deadlock.
Proof.
  intros Hheld. unfold updateTotalAmount, mbind, call_bind.
  by rewrite calculateTotal_held.
Qed.

Lemma cancelOrder_run reason o :
  order_mutex_ o = false →
  cancelOrder reason o =
    if bool_decide (status_ o = DELIVERED) || bool_decide (status_ o = SHIPPED)
    then Returned false o
    else Returned true
           (let o1 := with_status CANCELLED o in
            if negb (bool_decide (reason = "")) then with_notes reason o1 else o1).
Proof.
  intros Hfree. destruct o; simpl in *; subst. unfold cancelOrder. run.
  destruct (bool_decide (_ = DELIVERED) || bool_decide (_ = SHIPPED)); simpl;
    [reflexivity|].
  destruct (negb (bool_decide (reason = ""))); reflexivity.
Qed.

Lemma transition_allowed_successors status new_status :
  transition_allowed status new_status = true ↔ new_status ∈ successors status.
Proof.
  destruct status, new_status; simpl; split; intros Hin;
    first [reflexivity | discriminate | by repeat constructor
          | by repeat (apply elem_of_cons in Hin as [?|Hin]; [discriminate|]);
               apply elem_of_nil in Hin].
Qed.

(** [addItem], [removeItem] and [updateItemQuantity] hold [order_mutex_]
    when they call [updateTotalAmount], whose [calculateTotal] takes the
    mutex again. *)
Lemma addItem_never_returns product_id0 quantity0 unit_price0 o :
  order_mutex_ o = false →
  status_ o = PENDING →
  product_id0 ≠ "" → 0 < quantity0 → PrimFloat.ltb unit_price0 0%float = false →
  addItem product_id0 quantity0 unit_price0 o = Deadlock.
Proof.
  intros Hfree Hst Hid Hq Hprice. unfold addItem.
  rewrite bool_decide_eq_false_2, Hprice by done.
  destruct (quantity0 <=? 0) eqn:Hq'; [apply Z.leb_le in Hq'; lia|]. simpl.
  run. rewrite Hfree. unfold canModify. simpl. rewrite Hst. reflexivity.
Qed.

Lemma removeItem_never_returns product_id0 o i item :
  order_mutex_ o = false →
  status_ o = PENDING →
  find_item product_id0 (items_ o) = Some (i, item) →
  removeItem product_id0 o = Deadlock.
Proof.
  intros Hfree Hst Hfind. unfold removeItem. run.
  rewrite Hfree. unfold canModify. simpl. rewrite Hst. simpl. rewrite Hfind.
  reflexivity.
Qed.

Lemma removeItem_not_pending product_id0 o :
  order_mutex_ o = false →
  status_ o ≠ PENDING →
  removeItem product_id0 o = Returned false o.
Proof.
  intros Hfree Hst. unfold removeItem. run.
  rewrite Hfree. unfold canModify. simpl.
  rewrite bool_decide_eq_false_2 by done. simpl.
  by rewrite order_mutex_twice, order_mutex_free.
Qed.

Lemma updateItemQuantity_not_pending product_id0 new_quantity o :
  order_mutex_ o = false →
  status_ o ≠ PENDING →
  updateItemQuantity product_id0 new_quantity o = Returned false o.
Proof.
  intros Hfree Hst. unfold updateItemQuantity.
  destruct (new_quantity <=? 0); [by apply removeItem_not_pending|].
  run. rewrite Hfree. unfold canModify. simpl.
  rewrite bool_decide_eq_false_2 by done. simpl.
  by rewrite order_mutex_twice, order_mutex_free.
Qed.

(** With a non-positive quantity [updateItemQuantity] is [removeItem]. *)
Lemma updateItemQuantity_nonpositive product_id0 new_quantity o :
  new_quantity ≤ 0 →
  updateItemQuantity product_id0 new_quantity o = removeItem product_id0 o.
Proof.
  intros Hq. unfold updateItemQuantity.
  destruct (new_quantity <=? 0) eqn:Hq'; [reflexivity|].
  apply Z.leb_gt in Hq'. lia.
Qed.

(** The vector of lines after two [addItem] of a product that had no line:
    one more line, with the sum of the two quantities (as an [int]) and the
    unit price of the first call. *)
Lemma put_item_twice product_id0 q1 q2 price1 price2 items :
  find_item product_id0 items = None →
  put_item product_id0 q2 price2 (put_item product_id0 q1 price1 items) =
    items ++ [MakeOrderItem product_id0 (wrap_int (q1 + q2)) price1].
Proof.
  intros Hnone. unfold put_item at 2. rewrite Hnone.
  unfold put_item, find_item in *.
  rewrite (list_find_app_r _ _ _ Hnone). simpl.
  rewrite decide_True by done. simpl.
  rewrite <- (Nat.add_0_r (length items)), alter_app_r. reflexivity.
Qed.

(** [processOrderInternal] holds [order_mutex_] when it calls
    [updateStatus], which takes the mutex again: it returns from no
    state. *)
Lemma processOrderInternal_never_returns now w :
  processOrderInternal now w = Deadlock.
Proof.
  unfold processOrderInternal. run.
  destruct (order_mutex_ w.1) eqn:Hheld; [reflexivity|].
  by rewrite updateStatus_held.
Qed.

Lemma processOrder_unclaimed_never_returns now w :
  processing_flag_ w.1 = false → processOrder now w = Deadlock.
Proof.
  intros Hflag. unfold processOrder. run. rewrite Hflag.
  by rewrite processOrderInternal_never_returns.
Qed.

End OrderFacts.

(** ** The state machine of the status *)

(** C3, as stated, fails: [updateStatus] moves a PENDING order to
    CANCELLED, which is not among the successors the claim gives PENDING,
    and [cancelOrder] moves an order out of the terminal status FAILED. *)
Lemma status_moves_outside_claimed_successors :
  Order.updateStatus 0 CANCELLED new_order
    = Returned true (Order.with_status CANCELLED new_order)
  ∧ (CANCELLED ∉ OrderSpec.claimed_successors (Order.status_ new_order))
  ∧ OrderSpec.terminal FAILED
  ∧ Order.cancelOrder "" (Order.with_status FAILED new_order)
    = Returned true (Order.with_status CANCELLED new_order).
Proof.
  split_and!; [reflexivity| |by repeat constructor|reflexivity].
  simpl. intros Hin. apply list_elem_of_singleton in Hin. discriminate.
Qed.

(** C3 (amended). [updateStatus] succeeds exactly for the successors
    PENDING → PROCESSING, CANCELLED, FAILED; PROCESSING → CONFIRMED, FAILED,
    CANCELLED; CONFIRMED → SHIPPED, CANCELLED; SHIPPED → DELIVERED, and for
    none out of DELIVERED, CANCELLED and FAILED; on success the status is
    the new one, on failure the order is unchanged. [cancelOrder] fails,
    with the order unchanged, exactly from SHIPPED and DELIVERED and
    otherwise succeeds and leaves the status CANCELLED. *)
Theorem status_transitions now new_status reason o :
  Order.order_mutex_ o = false →
  (∃ ok o',
     Order.updateStatus now new_status o = Returned ok o'
     ∧ (ok = true ↔ new_status ∈ OrderSpec.successors (Order.status_ o))
     ∧ (ok = true → Order.status_ o' = new_status)
     ∧ (ok = false → o' = o))
  ∧ (OrderSpec.terminal (Order.status_ o) →
     Order.updateStatus now new_status o = Returned false o)
  ∧ (∃ ok o',
       Order.cancelOrder reason o = Returned ok o'
       ∧ (ok = true ↔ (Order.status_ o ∉ [SHIPPED; DELIVERED]))
       ∧ (ok = true → Order.status_ o' = CANCELLED)
       ∧ (ok = false → o' = o)).
Proof.
  intros Hfree. split_and!.
  - rewrite OrderFacts.updateStatus_run by done.
    pose proof (OrderFacts.transition_allowed_successors (Order.status_ o) new_status)
      as Hiff.
    destruct (Order.transition_allowed _ _).
    + eexists _, _. split_and!; [done| |..].
      * split; [intros _; by apply Hiff|done].
      * intros _. unfold OrderSpec.moved. by case_match.
      * done.
    + eexists _, _. split_and!; [done| |done..].
      split; [done|]. intros Hin. by apply Hiff in Hin.
  - intros Hterm. rewrite OrderFacts.updateStatus_run by done.
    unfold OrderSpec.terminal in Hterm.
    destruct (Order.status_ o); try reflexivity; exfalso;
      repeat (apply elem_of_cons in Hterm as [?|Hterm]; [discriminate|]);
      by apply elem_of_nil in Hterm.
  - rewrite OrderFacts.cancelOrder_run by done.
    destruct (Order.status_ o) eqn:Hst; simpl;
      eexists _, _; (split; [reflexivity|]);
      (split_and!; [|try done; intros _; by case_match..]);
      (split; [intros Hok; try discriminate| intros Hnot; try reflexivity]).
    all: try (intros Hin;
              repeat (apply elem_of_cons in Hin as [?|Hin]; [discriminate|]);
              by apply elem_of_nil in Hin).
    all: exfalso; apply Hnot; by repeat constructor.
Qed.

(** The amended C3 on a new order. *)
Lemma status_transitions_witness :
  Order.order_mutex_ new_order = false
  ∧ (∃ ok o',
       Order.updateStatus 7 PROCESSING new_order = Returned ok o'
       ∧ (ok = true ↔ PROCESSING ∈ OrderSpec.successors (Order.status_ new_order))
       ∧ (ok = true → Order.status_ o' = PROCESSING)
       ∧ (ok = false → o' = new_order))
  ∧ (OrderSpec.terminal (Order.status_ new_order) →
     Order.updateStatus 7 PROCESSING new_order = Returned false new_order)
  ∧ (∃ ok o',
       Order.cancelOrder "changed my mind" new_order = Returned ok o'
       ∧ (ok = true ↔ (Order.status_ new_order ∉ [SHIPPED; DELIVERED]))
       ∧ (ok = true → Order.status_ o' = CANCELLED)
       ∧ (ok = false → o' = new_order)).
Proof.
  split; [reflexivity|].
  apply (status_transitions 7 PROCESSING "changed my mind" new_order).
  reflexivity.
Defined.

(** ** Validation *)

Module ValidationFacts.
Import Order.
Import ValidationSpec.

Lemma check_item_app now item p errors :
  check_item now item p errors = errors ++ check_item now item p [].
Proof.
  unfold check_item.
  destruct (Product.getQuantity p <? quantity item),
           (Product.isExpired now p),
           (PrimFloat.ltb _ _); simpl;
    rewrite <- ?app_assoc, ?app_nil_r; reflexivity.
Qed.

Lemma validate_items_run now items errors o inv :
  Inventory.inventory_mutex_ inv = false →
  validate_items now items errors (o, inv) =
    Returned (errors ++ (items ≫= item_errors now inv)) (o, inv).
Proof.
  intros Hfree. revert errors.
  induction items as [|item rest IH]; intros errors.
  - simpl. by rewrite app_nil_r.
  - cbn [validate_items]. rewrite run_bind. unfold on_snd. cbn [fst snd].
    rewrite InventoryFacts.getProduct_run by done.
    rewrite bind_cons. unfold item_errors at 1.
    destruct (Inventory.products_ inv !! product_id item) as [p|].
    + rewrite IH, (check_item_app _ _ _ errors), <- app_assoc. reflexivity.
    + rewrite IH, <- app_assoc. reflexivity.
Qed.

Lemma validateOrder_run now o inv :
  order_mutex_ o = false →
  Inventory.inventory_mutex_ inv = false →
  validateOrder now (o, inv) =
    Returned (match items_ o with
              | [] => ["Order contains no items"]
              | _ => items_ o ≫= item_errors now inv
              end) (o, inv).
Proof.
  intros Hfree Hifree. unfold validateOrder. run. rewrite Hfree.
  change (items_ (with_mutex true o, inv).1) with (items_ o).
  destruct (items_ o) as [|item rest] eqn:Hitems.
  - cbn [fst snd]. by rewrite OrderFacts.order_mutex_twice, OrderFacts.order_mutex_free.
  - rewrite validate_items_run by done. cbn [fst snd app].
    by rewrite OrderFacts.order_mutex_twice, OrderFacts.order_mutex_free.
Qed.

(** Comparisons of [double]s: [x < y] is false exactly when [y <= x] or
    one of the two is a NaN. *)
Lemma SFcompare_swap x y : SFcompare y x = CompOpp <$> SFcompare x y.
Proof.
  destruct x as [[]|[]| |[] m1 e1], y as [[]|[]| |[] m2 e2]; try reflexivity;
    cbn [SFcompare fmap option_fmap option_map]; f_equal;
    rewrite (Z.compare_antisym e1 e2);
    destruct (e1 ?= e2)%Z eqn:He; cbn [CompOpp]; try reflexivity;
    rewrite (Pos.compare_cont_antisym m1 m2 Eq); cbn [CompOpp];
    by rewrite ?CompOpp_involutive.
Qed.

Lemma SFcompare_refl x : x ≠ S754_nan → SFcompare x x = Some Eq.
Proof.
  destruct x as [[]|[]| |[] m e]; try done; intros _; cbn [SFcompare];
    rewrite Z.compare_refl; fold (Pos.compare m m); by rewrite Pos.compare_refl.
Qed.

Lemma SFcompare_None x y :
  SFcompare x y = None ↔ x = S754_nan ∨ y = S754_nan.
Proof.
  destruct x as [[]|[]| |[] m1 e1], y as [[]|[]| |[] m2 e2]; cbn [SFcompare];
    split; try discriminate; try (intros [?|?]; discriminate); auto.
Qed.

Lemma is_nan_spec x : PrimFloat.is_nan x = true ↔ Prim2SF x = S754_nan.
Proof.
  unfold PrimFloat.is_nan. rewrite FloatAxioms.eqb_spec. unfold SFeqb.
  destruct (Prim2SF x) as [[]|[]| |[] m e] eqn:Hx; try done;
    rewrite SFcompare_refl by done; done.
Qed.

Lemma ltb_false_iff x y :
  PrimFloat.ltb x y = false
  ↔ PrimFloat.leb y x = true
    ∨ PrimFloat.is_nan x = true ∨ PrimFloat.is_nan y = true.
Proof.
  rewrite FloatAxioms.ltb_spec, FloatAxioms.leb_spec, !is_nan_spec.
  unfold SFltb, SFleb. rewrite (SFcompare_swap (Prim2SF x) (Prim2SF y)).
  pose proof (SFcompare_None (Prim2SF x) (Prim2SF y)) as Hnone.
  destruct (SFcompare (Prim2SF x) (Prim2SF y)) as [[]|]; cbn.
  - split; auto.
  - split; [discriminate|]. intros [?|Hn]; [discriminate|].
    apply Hnone in Hn. discriminate.
  - split; auto.
  - split; [|done]. intros _. right. by apply Hnone.
Qed.

(** The loop of [validateOrder] reports nothing for a line exactly when
    the product is stocked in sufficient quantity and not expired, and
    the price is within tolerance or the comparison meets a NaN. *)
Lemma item_errors_nil now inv item :
  item_errors now inv item = [] ↔
  ∃ p, Inventory.products_ inv !! product_id item = Some p
       ∧ quantity item ≤ Product.quantity_ p
       ∧ Product.isExpired now p = false
       ∧ (within_tolerance (Product.price_ p) (unit_price item)
          ∨ PrimFloat.is_nan (PrimFloat.mul (Product.price_ p) 0.05%float) = true
          ∨ PrimFloat.is_nan
              (PrimFloat.abs (PrimFloat.sub (Product.price_ p) (unit_price item)))
            = true).
Proof.
  unfold item_errors, within_tolerance, check_item,
    Product.getQuantity, Product.getPrice.
  setoid_rewrite <- ltb_false_iff.
  destruct (Inventory.products_ inv !! product_id item) as [p|].
  - destruct (Product.quantity_ p <? quantity item) eqn:Hq,
             (Product.isExpired now p) eqn:He,
             (PrimFloat.ltb _ _) eqn:Hp; simpl; split;
      try discriminate;
      try (intros (p' & [= <-] & Hq' & He' & Hp');
           first [congruence | apply Z.ltb_lt in Hq; lia]).
    intros _. exists p. split_and!; try done. apply Z.ltb_ge in Hq. lia.
  - split; [discriminate|]. intros (p & ? & _). discriminate.
Qed.

(** A line that passes the four checks as the claim words them gets no
    error from the loop. *)
Lemma item_accepted_no_errors now inv item :
  item_accepted now inv item → item_errors now inv item = [].
Proof.
  intros (p & Hp & Hq & He & Htol). apply item_errors_nil.
  exists p. split_and!; auto.
Qed.

(** [validateOrder] takes [order_mutex_] first: while the mutex is held
    it does not return, whatever the lines and the inventory. *)
Lemma validateOrder_held now o inv :
  order_mutex_ o = true → validateOrder now (o, inv) = Deadlock.
Proof. intros Hheld. unfold validateOrder. run. by rewrite Hheld. Qed.

Lemma bind_nil {A B} (f : A → list B) (l : list A) :
  l ≫= f = [] ↔ Forall (λ x, f x = []) l.
Proof.
  induction l as [|x l IH]; simpl.
  - split; [constructor|reflexivity].
  - rewrite Forall_cons. split.
    + intros [Hx Hl]%app_eq_nil. split; [done|]. by apply IH.
    + intros [Hx Hl]. apply IH in Hl. rewrite Hx. exact Hl.
Qed.

End ValidationFacts.

(** C7. An order whose lines pass the four checks is not accepted.
    [addItem], the one call that adds a line, appends it with
    [order_mutex_] taken and then blocks in [updateTotalAmount] without
    giving the mutex back; on the order this leaves, of which the only
    line passes the four checks against the shop, [validateOrder] takes
    the mutex first and does not return. The new order, without lines,
    yields the single error ["Order contains no items"]. The price check
    itself lets a line with a NaN unit price through, although no
    difference with a NaN is at most 5% of the current price. *)
Theorem validateOrder_blocks_on_order_with_lines :
  Order.create 0 "O1" "C1" = Some new_order
  ∧ Order.validateOrder 0 (new_order, shop)
    = Returned ["Order contains no items"] (new_order, shop)
  ∧ Order.addItem "P1" 2 5%float new_order = Deadlock
  ∧ Order.updateTotalAmount busy_order = Deadlock
  ∧ Order.items_ busy_order = [MakeOrderItem "P1" 2 5%float]
  ∧ Forall (ValidationSpec.item_accepted 0 shop) (Order.items_ busy_order)
  ∧ Order.validateOrder 0 (busy_order, shop) = Deadlock
  ∧ Order.check_item 0 (MakeOrderItem "P1" 2 PrimFloat.nan) (widget 5) [] = []
  ∧ ¬ ValidationSpec.within_tolerance (Product.price_ (widget 5)) PrimFloat.nan.
Proof.
  split_and!; try reflexivity.
  - apply Forall_singleton. exists (widget 5).
    split_and!; [reflexivity|simpl; lia|reflexivity|reflexivity].
  - vm_compute. discriminate.
Qed.

(** ** Reservation and rollback *)

Module ReservationFacts.
Import Order.
Import ReservationSpec.

Lemma with_products_same inv :
  Inventory.with_products (Inventory.products_ inv) inv = inv.
Proof. by destruct inv. Qed.

Lemma addQuantity_put_back product_id0 amount inv :
  Inventory.inventory_mutex_ inv = false →
  ∃ ok, Inventory.addQuantity product_id0 amount inv =
          Returned ok (Inventory.with_products
                         (put_back product_id0 amount (Inventory.products_ inv)) inv).
Proof.
  intros Hfree. rewrite InventoryFacts.addQuantity_run by done.
  unfold put_back, InventorySpec.added.
  destruct (Inventory.products_ inv !! product_id0) as [p|];
    [destruct (amount <? 0)|]; rewrite ?with_products_same; eauto.
Qed.

Lemma rollback_run processed_items o inv :
  Inventory.inventory_mutex_ inv = false →
  rollback processed_items (o, inv) =
    Returned tt (o, Inventory.with_products
                      (restore processed_items (Inventory.products_ inv)) inv).
Proof.
  revert inv. induction processed_items as [|[pid a] rest IH]; intros inv Hfree.
  - simpl. by rewrite with_products_same.
  - cbn [rollback]. rewrite run_bind. unfold on_snd. cbn [fst snd].
    destruct (addQuantity_put_back pid a inv Hfree) as [ok ->].
    rewrite IH by done. reflexivity.
Qed.

Lemma put_back_commute pid1 a1 pid2 a2 m :
  put_back pid1 a1 (put_back pid2 a2 m) = put_back pid2 a2 (put_back pid1 a1 m).
Proof.
  unfold put_back. destruct (decide (pid1 = pid2)) as [->|Hne].
  - destruct (m !! pid2) as [p|] eqn:Hp; [|by rewrite Hp].
    destruct (a1 <? 0) eqn:H1, (a2 <? 0) eqn:H2;
      rewrite ?Hp, ?lookup_insert_eq, ?H1, ?H2; try reflexivity.
    simpl. rewrite !insert_insert_eq, !wrap_int_add_l.
    by replace (Product.quantity_ p + a2 + a1)
         with (Product.quantity_ p + a1 + a2) by lia.
  - destruct (m !! pid1) as [p1|] eqn:Hp1, (m !! pid2) as [p2|] eqn:Hp2;
      destruct (a1 <? 0) eqn:H1, (a2 <? 0) eqn:H2;
      rewrite ?Hp1, ?Hp2, ?lookup_insert_ne, ?Hp1, ?Hp2, ?H1, ?H2 by done;
      try reflexivity.
    by apply insert_insert_ne.
Qed.

Lemma restore_put_back pid a processed_items m :
  restore processed_items (put_back pid a m)
  = put_back pid a (restore processed_items m).
Proof.
  revert m. induction processed_items as [|[pid' a'] rest IH]; intros m;
    [reflexivity|].
  simpl. rewrite put_back_commute. apply IH.
Qed.

Lemma restore_snoc pid a processed_items m :
  restore (processed_items ++ [(pid, a)]) m
  = put_back pid a (restore processed_items m).
Proof. unfold restore. by rewrite foldl_app. Qed.

(** A compensating [addQuantity] undoes a successful [removeQuantity]. *)
Lemma put_back_removed pid a p m :
  m !! pid = Some p →
  in_int (Product.quantity_ p) →
  0 ≤ a →
  put_back pid a
    (<[pid := Product.with_quantity (wrap_int (Product.quantity_ p - a)) p]> m) = m.
Proof.
  intros Hp Hint Ha. unfold put_back. rewrite lookup_insert_eq.
  destruct (a <? 0) eqn:Ha'; [apply Z.ltb_lt in Ha'; lia|].
  rewrite insert_insert_eq. simpl. rewrite wrap_int_add_l.
  replace (Product.quantity_ p - a + a) with (Product.quantity_ p) by lia.
  rewrite wrap_int_id by done.
  apply insert_id. rewrite Hp. by destruct p.
Qed.

(** The loop returns; when it returns [false] the products are what the
    compensation of [processed_items] makes of the products it started
    from, and the order has the error and, from PENDING or PROCESSING, the
    status FAILED; when it returns [true] the order is untouched. *)
Lemma reserve_items_run now items processed_items o inv :
  order_mutex_ o = false →
  Inventory.inventory_mutex_ inv = false →
  stock_int (Inventory.products_ inv) →
  ∃ ok o' inv',
    reserve_items now items processed_items (o, inv) = Returned ok (o', inv')
    ∧ Inventory.inventory_mutex_ inv' = false
    ∧ (ok = true → o' = o)
    ∧ (ok = false →
       Inventory.products_ inv'
         = restore processed_items (Inventory.products_ inv)
       ∧ error_message_ o' ≠ ""
       ∧ (transition_allowed (status_ o) FAILED = true → status_ o' = FAILED)).
Proof.
  intros Hfree. revert processed_items inv.
  induction items as [|item rest IH]; intros processed_items inv Hifree Hint.
  - eexists true, o, inv. by split_and!.
  - cbn [reserve_items]. rewrite run_bind. unfold on_snd. cbn [fst snd].
    rewrite InventoryFacts.removeQuantity_run by done.
    destruct (Inventory.products_ inv !! product_id item) as [p|] eqn:Hp;
      [destruct ((quantity item <? 0) || (Product.quantity_ p <? quantity item))
         eqn:Hbad|].
    2: {
      apply orb_false_iff in Hbad as [Hneg Hq].
      apply Z.ltb_ge in Hneg. apply Z.ltb_ge in Hq.
      cbn [negb]. cbv iota.
      set (inv1 := InventorySpec.removed (product_id item) (quantity item) p inv).
      assert (Hint1 : stock_int (Inventory.products_ inv1)).
      { intros pid' p'. unfold inv1. rewrite InventoryFacts.removed_products.
        rewrite lookup_insert. case_decide.
        - intros [= <-]. simpl. specialize (Hint _ _ Hp).
          rewrite wrap_int_id; unfold in_int, INT_MIN, INT_MAX in *; lia.
        - apply Hint. }
      destruct (IH (processed_items ++ [(product_id item, quantity item)]) inv1)
        as (ok & o' & inv' & Hrun & Hfree' & Htrue & Hfalse);
        [by unfold inv1; rewrite InventoryFacts.removed_mutex|done|].
      exists ok, o', inv'. split_and!; [done..|].
      intros Hok. destruct (Hfalse Hok) as (Hprods & Herr & Hst).
      split_and!; [|done..].
      rewrite Hprods. unfold inv1 at 1. rewrite InventoryFacts.removed_products.
      rewrite restore_snoc, <- restore_put_back.
      rewrite put_back_removed; [done|done|exact (Hint _ _ Hp)|done]. }
    all: cbn [negb]; cbv iota;
      rewrite run_bind, rollback_run by done;
      rewrite run_bind; unfold on_fst, setError, modify; cbn [fst snd];
      rewrite run_bind; cbn [fst snd];
      rewrite OrderFacts.updateStatus_run by done;
      cbn [status_ with_error];
      destruct (transition_allowed (status_ o) FAILED);
      eexists false, _, _; (split; [reflexivity|]);
      split_and!; try done; discriminate.
Qed.

(** Rollback completeness of the reservation loop of
    [processOrderInternal]: entered with no reservation made, a failing
    loop returns [false] with every product as it was before the loop and
    the order in status FAILED. *)
Lemma reserve_items_rollback now items o inv :
  order_mutex_ o = false →
  Inventory.inventory_mutex_ inv = false →
  stock_int (Inventory.products_ inv) →
  status_ o = PROCESSING →
  ∃ ok o' inv',
    reserve_items now items [] (o, inv) = Returned ok (o', inv')
    ∧ (ok = false →
       Inventory.products_ inv' = Inventory.products_ inv ∧ status_ o' = FAILED).
Proof.
  intros Hfree Hifree Hint Hst.
  destruct (reserve_items_run now items [] o inv Hfree Hifree Hint)
    as (ok & o' & inv' & Hrun & _ & _ & Hfalse).
  exists ok, o', inv'. split; [done|]. intros Hok.
  destruct (Hfalse Hok) as (Hprods & _ & Hfailed).
  split; [done|]. apply Hfailed. by rewrite Hst.
Qed.

End ReservationFacts.

(** ** Processing *)

Module ProcessingFacts.
Import Order.
Import ProcessingSpec.

(** The part of [processOrderInternal] that follows the move to
    PROCESSING, on an order that fails validation: it returns [false],
    records the errors, moves the order to FAILED and leaves the inventory
    as it was. *)
Lemma validate_and_reserve_rejects now o inv errors :
  order_mutex_ o = false →
  Inventory.inventory_mutex_ inv = false →
  status_ o = PROCESSING →
  validateOrder now (o, inv) = Returned errors (o, inv) →
  errors ≠ [] →
  validate_and_reserve now (o, inv) =
    Returned false
      (OrderSpec.moved now FAILED
         (with_error ("Validation failed: " +:+ join_errors errors) o), inv).
Proof.
  intros Hfree Hifree Hst Hval Herr. unfold validate_and_reserve.
  rewrite run_bind, Hval. rewrite bool_decide_eq_false_2 by done.
  cbn [negb]. cbv iota.
  rewrite run_bind. unfold on_fst, setError, modify. cbn [fst snd].
  rewrite run_bind. cbn [fst snd].
  rewrite OrderFacts.updateStatus_run by done.
  cbn [status_ with_error]. rewrite Hst. reflexivity.
Qed.

(** [processOrder] step by step: an invocation that finds the flag set
    is rejected; one that finds it clear sets it, runs the attempt with
    the flag set and clears it if the attempt returns. *)
Lemma processOrder_run now (w : world) :
  processOrder now w =
    if processing_flag_ w.1
    then Returned false (with_error "Order is already being processed" w.1, w.2)
    else released (processOrderInternal now (claimed w)).
Proof.
  unfold processOrder. rewrite run_bind. unfold get.
  destruct (processing_flag_ w.1); [reflexivity|].
  rewrite run_bind. unfold on_fst, modify. cbn [fst snd].
  rewrite run_bind. fold (claimed w).
  destruct (processOrderInternal now (claimed w)); reflexivity.
Qed.

(** While the flag of an order is set every [processOrder] on it is
    rejected: it returns [false], records the error, and leaves the
    inventory, the lines, the status and the flag as they were. *)
Lemma processOrder_rejected_while_claimed now (w : world) :
  processing_flag_ w.1 = true →
  ∃ o',
    processOrder now w = Returned false (o', w.2)
    ∧ error_message_ o' = "Order is already being processed"
    ∧ processing_flag_ o' = true
    ∧ status_ o' = status_ w.1
    ∧ items_ o' = items_ w.1.
Proof.
  intros Hflag. rewrite processOrder_run, Hflag.
  eexists. split; [reflexivity|]. by destruct w as [[] ?].
Qed.

(** An invocation that finds the flag clear never returns, whatever the
    order and the inventory: the flag it has set stays set. *)
Lemma processOrder_unclaimed_blocks now (w : world) :
  processing_flag_ w.1 = false →
  processOrder now w = Deadlock
  ∧ processing_flag_ (claimed w).1 = true
  ∧ processOrderInternal now (claimed w) = Deadlock.
Proof.
  intros Hflag. rewrite processOrder_run, Hflag.
  by rewrite OrderFacts.processOrderInternal_never_returns.
Qed.

End ProcessingFacts.

(** C5. [processOrder] on a new order takes the processing flag and
    never gives it back: the attempt it runs with the flag set,
    [processOrderInternal], does not return, so that the store that
    clears the flag is not reached and no attempt is ever done. An
    invocation on the order while the flag is set returns [false] at
    once, records ["Order is already being processed"] and touches
    neither the inventory, the status nor the flag. *)
Theorem processOrder_never_releases_flag :
  Order.create 0 "O1" "C1" = Some new_order
  ∧ Order.processing_flag_ new_order = false
  ∧ Order.processOrder 0 (new_order, shop) = Deadlock
  ∧ ProcessingSpec.claimed (new_order, shop)
    = (Order.with_flag true new_order, shop)
  ∧ Order.processOrderInternal 0 (ProcessingSpec.claimed (new_order, shop))
    = Deadlock
  ∧ Order.processOrder 1 (ProcessingSpec.claimed (new_order, shop))
    = Returned false
        (Order.with_error "Order is already being processed"
           (Order.with_flag true new_order), shop)
  ∧ Order.processing_flag_
      (Order.with_error "Order is already being processed"
         (Order.with_flag true new_order)) = true.
Proof. split_and!; reflexivity. Qed.

(** C4. An order without lines fails validation with one error, and
    [processOrder] on it does not return: [processOrderInternal] takes
    [order_mutex_] and, holding it, calls [updateStatus], which takes it
    again. *)
Theorem processOrder_blocks_on_invalid_order :
  Order.create 0 "O1" "C1" = Some new_order
  ∧ Order.validateOrder 0 (new_order, shop)
    = Returned ["Order contains no items"] (new_order, shop)
  ∧ Order.processOrder 0 (new_order, shop) = Deadlock.
Proof. split_and!; reflexivity. Qed.


(** C8. [addItem] on a new order does not return: it takes
    [order_mutex_] and, holding it, calls [updateTotalAmount], whose
    [calculateTotal] takes the mutex again. (The update of the lines it
    makes before that is the one claimed: one line, the quantities
    added.) *)
Theorem addItem_blocks_on_new_order :
  Order.create 0 "O1" "C1" = Some new_order
  ∧ Order.addItem "P1" 2 5%float new_order = Deadlock
  ∧ Order.put_item "P1" 3 5%float (Order.put_item "P1" 2 5%float [])
    = [MakeOrderItem "P1" 5 5%float].
Proof. split_and!; reflexivity. Qed.


(** * Further properties of the code *)

(** ** Products *)

Module ProductFacts.

Lemma string_app_length (s1 s2 : string) :
  String.length (s1 +:+ s2) = (String.length s1 + String.length s2)%nat.
Proof. induction s1 as [|c s1 IH]; simpl; [reflexivity|]. by rewrite IH. Qed.

Lemma whole_days_le_iff (d days : Z) :
  d / (24 * ticks_per_hour) ≤ days ↔ d < (days + 1) * (24 * ticks_per_hour).
Proof.
  assert (Hpos : 0 < 24 * ticks_per_hour) by (unfold ticks_per_hour; lia).
  split; intros H.
  - apply Z.nle_gt. intros Hge.
    assert (days + 1 ≤ d / (24 * ticks_per_hour))
      by (apply Z.div_le_lower_bound; lia).
    lia.
  - apply Z.lt_succ_r. apply Z.div_lt_upper_bound; lia.
Qed.

End ProductFacts.

(** X1. What the constructor of [PerishableProduct] lets through: the
    identifier and the name are not empty, the price is not below zero,
    the quantity is not negative and, at the time of construction, the
    product is not expired and has no negative number of days left. *)
Theorem constructed_perishable_is_valid now id name category price quantity
    expiry requirements temperature p :
  Product.create_perishable now id name category price quantity expiry
    requirements temperature = Some p →
  expiry - now < 2 ^ 63 →
  Product.id_ p = id ∧ id ≠ "" ∧ Product.name_ p ≠ ""
  ∧ PrimFloat.ltb (Product.price_ p) 0%float = false
  ∧ 0 ≤ Product.quantity_ p
  ∧ Product.isExpired now p = false
  ∧ ∃ e, Product.perishable_ p = Some e
         ∧ 0 ≤ PerishableProduct.getDaysUntilExpiry now e.
Proof.
  unfold Product.create_perishable, Product.create. intros Hp Hrange.
  destruct (bool_decide (id = "")) eqn:Hid; [discriminate|].
  destruct (bool_decide (name = "")) eqn:Hname; [discriminate|].
  destruct (PrimFloat.ltb price 0%float) eqn:Hprice; [discriminate|].
  destruct (quantity <? 0) eqn:Hq; [discriminate|].
  destruct (expiry <? now) eqn:He; [discriminate|].
  injection Hp as <-. simpl.
  apply bool_decide_eq_false in Hid. apply bool_decide_eq_false in Hname.
  apply Z.ltb_ge in Hq. apply Z.ltb_ge in He.
  unfold Product.isExpired, PerishableProduct.isExpired. simpl.
  split_and!; try done.
  - by apply Z.ltb_ge.
  - eexists. split; [reflexivity|].
    rewrite getDaysUntilExpiry_fresh by (simpl; lia). simpl.
    apply Z.div_pos; [lia|]. unfold ticks_per_hour. lia.
Qed.

(** X1 on a carton of milk. *)
Lemma constructed_perishable_is_valid_witness :
  let p := Product.Make "P3" "Milk" "Dairy" 2%float 4 0 (Some milk) in
  Product.id_ p = "P3" ∧ "P3" ≠ "" ∧ Product.name_ p ≠ ""
  ∧ PrimFloat.ltb (Product.price_ p) 0%float = false
  ∧ 0 ≤ Product.quantity_ p
  ∧ Product.isExpired 0 p = false
  ∧ ∃ e, Product.perishable_ p = Some e
         ∧ 0 ≤ PerishableProduct.getDaysUntilExpiry 0 e.
Proof.
  apply (constructed_perishable_is_valid 0 "P3" "Milk" "Dairy" 2%float 4
           (10 * ticks_per_hour) "chilled" 4%float).
  - reflexivity.
  - vm_compute. reflexivity.
Defined.

(** X2. [expiresSoon] grows with the number of days asked for, and an
    expired product expires soon whatever that number is. *)
Theorem expiresSoon_monotone now days days' p :
  (PerishableProduct.isExpired now p = true →
   PerishableProduct.expiresSoon now days p = true)
  ∧ (days ≤ days' →
     PerishableProduct.expiresSoon now days p = true →
     PerishableProduct.expiresSoon now days' p = true).
Proof.
  unfold PerishableProduct.expiresSoon.
  destruct (PerishableProduct.isExpired now p); split; try done.
  intros Hle Hsoon. apply Z.leb_le in Hsoon. apply Z.leb_le. lia.
Qed.

(** X2 on the milk: expired an hour after its date, and, two days before
    it, expiring within two days and so within seven. *)
Lemma expiresSoon_monotone_witness :
  PerishableProduct.expiresSoon (11 * ticks_per_hour) 0 milk = true
  ∧ PerishableProduct.expiresSoon (- 38 * ticks_per_hour) 7 milk = true.
Proof.
  split.
  - apply (proj1 (expiresSoon_monotone (11 * ticks_per_hour) 0 0 milk)).
    reflexivity.
  - apply (proj2 (expiresSoon_monotone (- 38 * ticks_per_hour) 2 7 milk)).
    + lia.
    + reflexivity.
Defined.

(** X3. For a product that is not expired, [expiresSoon(days)] holds
    exactly while fewer than [days + 1] whole days are left: the days left
    are rounded down before they are compared. *)
Theorem expiresSoon_counts_started_days now days p :
  now ≤ PerishableProduct.expiry_date_ p →
  PerishableProduct.expiry_date_ p - now < 2 ^ 63 →
  PerishableProduct.expiresSoon now days p = true
  ↔ PerishableProduct.expiry_date_ p - now < (days + 1) * (24 * ticks_per_hour).
Proof.
  intros Hfresh Hrange. unfold PerishableProduct.expiresSoon.
  replace (PerishableProduct.isExpired now p) with false
    by (symmetry; unfold PerishableProduct.isExpired; by apply Z.ltb_ge).
  rewrite getDaysUntilExpiry_fresh by done.
  rewrite Z.leb_le. apply ProductFacts.whole_days_le_iff.
Qed.

(** X3 with one week asked for and seven days and a half left. *)
Lemma expiresSoon_counts_started_days_witness :
  PerishableProduct.expiresSoon 0 7
    (PerishableProduct.Members (180 * ticks_per_hour) "" 4%float) = true
  ↔ 180 * ticks_per_hour - 0 < (7 + 1) * (24 * ticks_per_hour).
Proof.
  apply (expiresSoon_counts_started_days 0 7
           (PerishableProduct.Members (180 * ticks_per_hour) "" 4%float)).
  - vm_compute. discriminate.
  - vm_compute. reflexivity.
Defined.

(** X4. [getExpiryInfo] of a perishable product is ["EXPIRED"] exactly
    when the product is expired. *)
Theorem getExpiryInfo_expired_iff now p :
  PerishableProduct.getExpiryInfo now p = "EXPIRED"
  ↔ PerishableProduct.isExpired now p = true.
Proof.
  unfold PerishableProduct.getExpiryInfo.
  destruct (PerishableProduct.isExpired now p); [done|].
  split; [|discriminate]. intros Heq.
  apply (f_equal String.length) in Heq.
  rewrite ProductFacts.string_app_length in Heq. simpl in Heq. lia.
Qed.

(** ** The inventory as a store *)

Module StoreFacts.
Import Inventory.

Lemma guarded_run {A} (body : M t A) inv :
  inventory_mutex_ inv = false →
  guarded body inv =
    match body (with_mutex true inv) with
    | Returned a inv' => Returned a (with_mutex false inv')
    | Deadlock => Deadlock
    end.
Proof.
  intros Hfree. unfold guarded, lock_guard, lock, unlock, modify.
  rewrite run_bind, Hfree, run_bind.
  destruct (body (with_mutex true inv)); reflexivity.
Qed.

Lemma unlocked inv :
  inventory_mutex_ inv = false → with_mutex false (with_mutex true inv) = inv.
Proof. destruct inv; simpl; intros ->; reflexivity. Qed.

Lemma addProduct_run product inv :
  inventory_mutex_ inv = false →
  addProduct product inv =
    match products_ inv !! Product.id_ product with
    | Some _ => Returned false inv
    | None =>
        Returned true
          (with_products (<[Product.id_ product := product]> (products_ inv)) inv)
    end.
Proof.
  intros Hfree. unfold addProduct. rewrite guarded_run by done.
  destruct inv as [ps mu d ct cbs log]; simpl in *; subst mu.
  rewrite run_bind. unfold get. simpl.
  destruct (ps !! Product.id_ product); reflexivity.
Qed.

Lemma removeProduct_run product_id inv :
  inventory_mutex_ inv = false →
  removeProduct product_id inv =
    match products_ inv !! product_id with
    | Some _ => Returned true (with_products (delete product_id (products_ inv)) inv)
    | None => Returned false inv
    end.
Proof.
  intros Hfree. unfold removeProduct. rewrite guarded_run by done.
  destruct inv as [ps mu d ct cbs log]; simpl in *; subst mu.
  rewrite run_bind. unfold get. simpl.
  destruct (ps !! product_id); reflexivity.
Qed.

Lemma updateQuantity_run product_id new_quantity inv :
  inventory_mutex_ inv = false →
  updateQuantity product_id new_quantity inv =
    match products_ inv !! product_id with
    | Some p =>
        if new_quantity <? 0 then Returned false inv
        else Returned true
               (with_products
                  (<[product_id := Product.with_quantity new_quantity p]>
                     (products_ inv)) inv)
    | None => Returned false inv
    end.
Proof.
  intros Hfree. unfold updateQuantity.
  destruct (new_quantity <? 0) eqn:Hneg.
  - destruct (products_ inv !! product_id); reflexivity.
  - rewrite guarded_run by done.
    destruct inv as [ps mu d ct cbs log]; simpl in *; subst mu.
    rewrite run_bind. unfold get. simpl.
    destruct (ps !! product_id); [|reflexivity].
    unfold Product.setQuantity. rewrite Hneg. reflexivity.
Qed.

Lemma getAvailableQuantity_run product_id inv :
  inventory_mutex_ inv = false →
  getAvailableQuantity product_id inv =
    Returned (match products_ inv !! product_id with
              | None => -1
              | Some p => Product.quantity_ p
              end) inv.
Proof.
  intros Hfree. unfold getAvailableQuantity. rewrite guarded_run by done.
  destruct inv as [ps mu d ct cbs log]; simpl in *; subst mu. reflexivity.
Qed.

Lemma hasProduct_run product_id inv :
  inventory_mutex_ inv = false →
  hasProduct product_id inv =
    Returned (match products_ inv !! product_id with
              | Some _ => true
              | None => false
              end) inv.
Proof.
  intros Hfree. unfold hasProduct. rewrite guarded_run by done.
  destruct inv as [ps mu d ct cbs log]; simpl in *; subst mu. reflexivity.
Qed.

Lemma setCategoryThreshold_run category threshold inv :
  inventory_mutex_ inv = false →
  setCategoryThreshold category threshold inv =
    Returned tt
      (with_thresholds (<[category := threshold]> (category_thresholds_ inv)) inv).
Proof.
  intros Hfree. unfold setCategoryThreshold. rewrite guarded_run by done.
  destruct inv as [ps mu d ct cbs log]; simpl in *; subst mu. reflexivity.
Qed.

Lemma registerAlertCallback_run cb inv :
  inventory_mutex_ inv = false →
  registerAlertCallback cb inv =
    Returned tt (with_callbacks (alert_callbacks_ inv ++ [cb]) inv).
Proof.
  intros Hfree. unfold registerAlertCallback. rewrite guarded_run by done.
  destruct inv as [ps mu d ct cbs log]; simpl in *; subst mu. reflexivity.
Qed.

End StoreFacts.

(** X5. [addProduct] of a product whose identifier is stocked returns
    [false] and changes nothing; otherwise it returns [true], after which
    [getProduct] finds the product under its identifier, answers for every
    other identifier as before, and nothing else of the inventory has
    changed. *)
Theorem addProduct_then_getProduct product inv :
  Inventory.inventory_mutex_ inv = false →
  match Inventory.products_ inv !! Product.id_ product with
  | Some _ => Inventory.addProduct product inv = Returned false inv
  | None =>
      ∃ inv',
        Inventory.addProduct product inv = Returned true inv'
        ∧ Inventory.getProduct (Product.id_ product) inv' = Returned (Some product) inv'
        ∧ (∀ other, other ≠ Product.id_ product →
             Inventory.getProduct other inv'
               = Returned (Inventory.products_ inv !! other) inv')
        ∧ Inventory.with_products (Inventory.products_ inv) inv' = inv
  end.
Proof.
  intros Hfree. rewrite StoreFacts.addProduct_run by done.
  destruct (Inventory.products_ inv !! Product.id_ product) eqn:Hp; [done|].
  eexists. split; [reflexivity|]. split_and!.
  - rewrite InventoryFacts.getProduct_run by done. simpl.
    by rewrite lookup_insert_eq.
  - intros other Hne. rewrite InventoryFacts.getProduct_run by done. simpl.
    by rewrite lookup_insert_ne.
  - by destruct inv.
Qed.

(** X5 on a third product for the shop. *)
Lemma addProduct_then_getProduct_witness :
  ∃ inv',
    Inventory.addProduct (Product.Make "P3" "Milk" "Dairy" 2%float 4 0 (Some milk)) shop
      = Returned true inv'
    ∧ Inventory.getProduct "P3" inv'
      = Returned (Some (Product.Make "P3" "Milk" "Dairy" 2%float 4 0 (Some milk))) inv'
    ∧ (∀ other, other ≠ "P3" →
         Inventory.getProduct other inv'
           = Returned (Inventory.products_ shop !! other) inv')
    ∧ Inventory.with_products (Inventory.products_ shop) inv' = shop.
Proof.
  apply (addProduct_then_getProduct
           (Product.Make "P3" "Milk" "Dairy" 2%float 4 0 (Some milk)) shop).
  reflexivity.
Defined.

(** X6. [removeProduct] returns [true] exactly when the product is
    stocked; afterwards [hasProduct] answers [false] for it, the other
    products are as before, and no callback was called. Removing a product
    that [addProduct] has just added gives back the inventory as it
    was. *)
Theorem removeProduct_forgets product_id product inv :
  Inventory.inventory_mutex_ inv = false →
  (∃ ok inv',
     Inventory.removeProduct product_id inv = Returned ok inv'
     ∧ (ok = true ↔ is_Some (Inventory.products_ inv !! product_id))
     ∧ (ok = false → inv' = inv)
     ∧ Inventory.hasProduct product_id inv' = Returned false inv'
     ∧ (∀ other, other ≠ product_id →
          Inventory.products_ inv' !! other = Inventory.products_ inv !! other)
     ∧ Inventory.delivered_ inv' = Inventory.delivered_ inv)
  ∧ (Inventory.products_ inv !! Product.id_ product = None →
     (Inventory.addProduct product
        ≫= λ _, Inventory.removeProduct (Product.id_ product)) inv
       = Returned true inv).
Proof.
  intros Hfree. split.
  - rewrite StoreFacts.removeProduct_run by done.
    destruct (Inventory.products_ inv !! product_id) eqn:Hp.
    + eexists _, _. split; [reflexivity|]. split_and!.
      * done.
      * done.
      * rewrite StoreFacts.hasProduct_run by done. simpl.
        by rewrite lookup_delete_eq.
      * intros other Hne. simpl. by rewrite lookup_delete_ne.
      * done.
    + eexists _, _. split; [reflexivity|]. split_and!.
      * split; [done|]. by intros [? ?].
      * done.
      * rewrite StoreFacts.hasProduct_run by done. by rewrite Hp.
      * done.
      * done.
  - intros Hnew. rewrite run_bind, StoreFacts.addProduct_run, Hnew by done.
    rewrite StoreFacts.removeProduct_run by done. simpl.
    rewrite lookup_insert_eq, delete_insert_eq, delete_id by done.
    by destruct inv.
Qed.

(** X6 on the gadget of the shop. *)
Lemma removeProduct_forgets_witness :
  (∃ ok inv',
     Inventory.removeProduct "P2" shop = Returned ok inv'
     ∧ (ok = true ↔ is_Some (Inventory.products_ shop !! "P2"))
     ∧ (ok = false → inv' = shop)
     ∧ Inventory.hasProduct "P2" inv' = Returned false inv'
     ∧ (∀ other, other ≠ "P2" →
          Inventory.products_ inv' !! other = Inventory.products_ shop !! other)
     ∧ Inventory.delivered_ inv' = Inventory.delivered_ shop)
  ∧ (Inventory.products_ shop !! Product.id_ (widget 9) = None →
     (Inventory.addProduct (widget 9)
        ≫= λ _, Inventory.removeProduct (Product.id_ (widget 9))) shop
       = Returned true shop).
Proof. apply (removeProduct_forgets "P2" (widget 9) shop). reflexivity. Defined.

(** X7. [updateQuantity] returns [false] and changes nothing when the new
    quantity is negative or the product is not stocked; otherwise it
    returns [true], [getAvailableQuantity] then answers the new quantity,
    and, unlike [removeQuantity], it calls no alert callback however low
    the new quantity is. *)
Theorem updateQuantity_sets_without_alert product_id new_quantity inv :
  Inventory.inventory_mutex_ inv = false →
  ∃ ok inv',
    Inventory.updateQuantity product_id new_quantity inv = Returned ok inv'
    ∧ (ok = true ↔
       0 ≤ new_quantity ∧ is_Some (Inventory.products_ inv !! product_id))
    ∧ (ok = false → inv' = inv)
    ∧ (ok = true →
       Inventory.getAvailableQuantity product_id inv' = Returned new_quantity inv')
    ∧ Inventory.delivered_ inv' = Inventory.delivered_ inv.
Proof.
  intros Hfree. rewrite StoreFacts.updateQuantity_run by done.
  destruct (Inventory.products_ inv !! product_id) as [p|] eqn:Hp.
  - destruct (new_quantity <? 0) eqn:Hneg.
    + apply Z.ltb_lt in Hneg. eexists _, _. split; [reflexivity|].
      split_and!; try done. split; [done|]. intros [? _]. lia.
    + apply Z.ltb_ge in Hneg. eexists _, _. split; [reflexivity|].
      split_and!; try done.
      intros _. rewrite StoreFacts.getAvailableQuantity_run by done. simpl.
      by rewrite lookup_insert_eq.
  - eexists _, _. split; [reflexivity|]. split_and!; try done.
    split; [done|]. by intros [_ [? ?]].
Qed.

(** X7 on emptying the stock of widgets. *)
Lemma updateQuantity_sets_without_alert_witness :
  ∃ ok inv',
    Inventory.updateQuantity "P1" 0 shop = Returned ok inv'
    ∧ (ok = true ↔ 0 ≤ 0 ∧ is_Some (Inventory.products_ shop !! "P1"))
    ∧ (ok = false → inv' = shop)
    ∧ (ok = true → Inventory.getAvailableQuantity "P1" inv' = Returned 0 inv')
    ∧ Inventory.delivered_ inv' = Inventory.delivered_ shop.
Proof. apply (updateQuantity_sets_without_alert "P1" 0 shop). reflexivity. Defined.

(** X8. After a [removeQuantity] that returned [true], [addQuantity] of
    the same amount to the same product returns [true] and every product
    is as it was before the removal; the alerts the removal delivered stay
    delivered. *)
Theorem addQuantity_undoes_removeQuantity product_id amount inv inv1 :
  Inventory.inventory_mutex_ inv = false →
  ReservationSpec.stock_int (Inventory.products_ inv) →
  Inventory.removeQuantity product_id amount inv = Returned true inv1 →
  ∃ inv2,
    Inventory.addQuantity product_id amount inv1 = Returned true inv2
    ∧ Inventory.products_ inv2 = Inventory.products_ inv
    ∧ Inventory.delivered_ inv2 = Inventory.delivered_ inv1.
Proof.
  intros Hfree Hint. rewrite InventoryFacts.removeQuantity_run by done.
  destruct (Inventory.products_ inv !! product_id) as [p|] eqn:Hp; [|discriminate].
  destruct ((amount <? 0) || (Product.quantity_ p <? amount)) eqn:Hbad;
    [discriminate|].
  intros [= <-]. apply orb_false_iff in Hbad as [Hneg _].
  rewrite InventoryFacts.addQuantity_run
    by (by rewrite InventoryFacts.removed_mutex).
  rewrite InventoryFacts.removed_products, lookup_insert_eq, Hneg.
  eexists. split; [reflexivity|]. split; [|reflexivity].
  unfold InventorySpec.added. simpl.
  rewrite InventoryFacts.removed_products, insert_insert_eq. simpl.
  rewrite wrap_int_add_l.
  replace (Product.quantity_ p - amount + amount) with (Product.quantity_ p) by lia.
  rewrite wrap_int_id by exact (Hint _ _ Hp).
  apply insert_id. rewrite Hp. by destruct p.
Qed.

(** X8 on three of the five widgets of the shop. *)
Lemma addQuantity_undoes_removeQuantity_witness :
  ∃ inv2,
    Inventory.addQuantity "P1" 3 (InventorySpec.removed "P1" 3 (widget 5) shop)
      = Returned true inv2
    ∧ Inventory.products_ inv2 = Inventory.products_ shop
    ∧ Inventory.delivered_ inv2
      = Inventory.delivered_ (InventorySpec.removed "P1" 3 (widget 5) shop).
Proof.
  apply (addQuantity_undoes_removeQuantity "P1" 3 shop).
  - reflexivity.
  - intros pid p Hp. simpl in Hp.
    apply lookup_insert_Some in Hp as [[_ <-]|[_ Hp]];
      [|apply lookup_singleton_Some in Hp as [_ <-]];
      vm_compute; split; discriminate.
  - vm_compute. reflexivity.
Defined.

(** X9. [setCategoryThreshold] takes any threshold; afterwards
    [getThreshold] answers it for the stocked products of that category
    and answers as before for the products of other categories and for
    identifiers that are not stocked. *)
Theorem setCategoryThreshold_applies category threshold inv :
  Inventory.inventory_mutex_ inv = false →
  ∃ inv',
    Inventory.setCategoryThreshold category threshold inv = Returned tt inv'
    ∧ Inventory.products_ inv' = Inventory.products_ inv
    ∧ ∀ product_id,
        Inventory.getThreshold product_id inv' =
          match Inventory.products_ inv !! product_id with
          | Some p =>
              if decide (Product.category_ p = category) then threshold
              else Inventory.getThreshold product_id inv
          | None => Inventory.default_low_stock_threshold_ inv
          end.
Proof.
  intros Hfree. rewrite StoreFacts.setCategoryThreshold_run by done.
  eexists. split; [reflexivity|]. split; [reflexivity|].
  intros product_id. unfold Inventory.getThreshold. simpl.
  destruct (Inventory.products_ inv !! product_id) as [p|]; [|reflexivity].
  rewrite lookup_insert. destruct (decide (Product.category_ p = category)) as [->|Hne].
  - by rewrite decide_True.
  - by rewrite decide_False.
Qed.

(** X9 on a threshold for tools. *)
Lemma setCategoryThreshold_applies_witness :
  ∃ inv',
    Inventory.setCategoryThreshold "Tools" 3 shop = Returned tt inv'
    ∧ Inventory.products_ inv' = Inventory.products_ shop
    ∧ ∀ product_id,
        Inventory.getThreshold product_id inv' =
          match Inventory.products_ shop !! product_id with
          | Some p =>
              if decide (Product.category_ p = "Tools") then 3
              else Inventory.getThreshold product_id shop
          | None => Inventory.default_low_stock_threshold_ shop
          end.
Proof. apply (setCategoryThreshold_applies "Tools" 3 shop). reflexivity. Defined.

Module StockListFacts.
Import Inventory.

Lemma getLowStockProducts_run inv :
  inventory_mutex_ inv = false →
  getLowStockProducts inv =
    Returned ((filter (λ pair, Product.getQuantity pair.2 < getThreshold pair.1 inv)
                      (entries inv)).*2) inv.
Proof.
  intros Hfree. unfold getLowStockProducts. rewrite StoreFacts.guarded_run by done.
  destruct inv as [ps mu d ct cbs log]; simpl in *; subst mu. reflexivity.
Qed.

Lemma elem_of_low_stock inv p :
  p ∈ (filter (λ pair, Product.getQuantity pair.2 < getThreshold pair.1 inv)
              (entries inv)).*2
  ↔ ∃ product_id,
      products_ inv !! product_id = Some p
      ∧ Product.quantity_ p < InventorySpec.effective_threshold inv p.
Proof.
  rewrite list_elem_of_fmap. split.
  - intros ([pid p'] & -> & Hin). apply list_elem_of_filter in Hin as [Hlow Hin].
    apply elem_of_map_to_list in Hin. exists pid. split; [done|].
    simpl in Hlow. by rewrite (InventoryFacts.getThreshold_stocked _ _ _ Hin) in Hlow.
  - intros (pid & Hp & Hlow). exists (pid, p). split; [done|].
    apply list_elem_of_filter. split; [|by apply elem_of_map_to_list].
    simpl. by rewrite (InventoryFacts.getThreshold_stocked _ _ _ Hp).
Qed.

End StockListFacts.

(** X10. [getLowStockProducts] changes nothing and returns exactly the
    stocked products whose quantity is strictly below their effective
    threshold (the override of the category, else the default). *)
Theorem getLowStockProducts_lists_below_threshold inv :
  Inventory.inventory_mutex_ inv = false →
  ∃ low,
    Inventory.getLowStockProducts inv = Returned low inv
    ∧ ∀ p, p ∈ low ↔
           ∃ product_id,
             Inventory.products_ inv !! product_id = Some p
             ∧ Product.quantity_ p < InventorySpec.effective_threshold inv p.
Proof.
  intros Hfree. rewrite StockListFacts.getLowStockProducts_run by done.
  eexists. split; [reflexivity|]. apply StockListFacts.elem_of_low_stock.
Qed.

(** X10 on the shop. *)
Lemma getLowStockProducts_lists_below_threshold_witness :
  ∃ low,
    Inventory.getLowStockProducts shop = Returned low shop
    ∧ ∀ p, p ∈ low ↔
           ∃ product_id,
             Inventory.products_ shop !! product_id = Some p
             ∧ Product.quantity_ p < InventorySpec.effective_threshold shop p.
Proof. apply (getLowStockProducts_lists_below_threshold shop). reflexivity. Defined.

(** X11. [checkAndSendLowStockAlerts] returns and leaves the products as
    they are. When no stocked product is below its effective threshold it
    calls no callback; otherwise it calls every registered callback once,
    in registration order, all with the same single message, however many
    products are low. *)
Theorem checkAndSendLowStockAlerts_one_message inv :
  Inventory.inventory_mutex_ inv = false →
  ∃ inv',
    Inventory.checkAndSendLowStockAlerts inv = Returned tt inv'
    ∧ Inventory.products_ inv' = Inventory.products_ inv
    ∧ ((∀ product_id p,
          Inventory.products_ inv !! product_id = Some p →
          InventorySpec.effective_threshold inv p ≤ Product.quantity_ p) →
       inv' = inv)
    ∧ ((∃ product_id p,
          Inventory.products_ inv !! product_id = Some p
          ∧ Product.quantity_ p < InventorySpec.effective_threshold inv p) →
       ∃ message,
         Inventory.delivered_ inv' =
           Inventory.delivered_ inv
             ++ ((λ cb, (cb, message)) <$> Inventory.alert_callbacks_ inv)).
Proof.
  intros Hfree. unfold Inventory.checkAndSendLowStockAlerts.
  rewrite run_bind, StockListFacts.getLowStockProducts_run by done.
  set (low := (filter _ (Inventory.entries inv)).*2).
  pose proof (StockListFacts.elem_of_low_stock inv) as Hlow. fold low in Hlow.
  destruct low as [|p0 low'] eqn:Hl.
  - rewrite bool_decide_eq_true_2 by done.
    exists inv. split_and!; [done..|].
    intros (pid & p & Hp & Hlt). exfalso.
    eapply elem_of_nil, Hlow. eauto.
  - rewrite bool_decide_eq_false_2 by done.
    eexists. split; [reflexivity|]. split_and!; [done| |by eauto].
    intros Hall. exfalso.
    destruct (proj1 (Hlow p0)) as (pid & Hp & Hlt); [by left|].
    specialize (Hall _ _ Hp). lia.
Qed.

(** X11 on the shop, where the widgets are low. *)
Lemma checkAndSendLowStockAlerts_one_message_witness :
  ∃ inv',
    Inventory.checkAndSendLowStockAlerts shop = Returned tt inv'
    ∧ Inventory.products_ inv' = Inventory.products_ shop
    ∧ ((∀ product_id p,
          Inventory.products_ shop !! product_id = Some p →
          InventorySpec.effective_threshold shop p ≤ Product.quantity_ p) →
       inv' = shop)
    ∧ ((∃ product_id p,
          Inventory.products_ shop !! product_id = Some p
          ∧ Product.quantity_ p < InventorySpec.effective_threshold shop p) →
       ∃ message,
         Inventory.delivered_ inv' =
           Inventory.delivered_ shop
             ++ ((λ cb, (cb, message)) <$> Inventory.alert_callbacks_ shop)).
Proof. apply (checkAndSendLowStockAlerts_one_message shop). reflexivity. Defined.

(** ** Totals and checks over the whole stock *)

Module TotalFacts.
Import Inventory.

Lemma wrap_int_add_r x y : wrap_int (x + wrap_int y) = wrap_int (x + y).
Proof. by rewrite Z.add_comm, wrap_int_add_l, Z.add_comm. Qed.

Lemma quantity_sum_perm l1 l2 :
  l1 ≡ₚ l2 → InventorySpec.quantity_sum l1 = InventorySpec.quantity_sum l2.
Proof.
  induction 1; simpl; lia.
Qed.

Lemma wrapped_total l a :
  foldl (λ total pair, wrap_int (total + Product.getQuantity pair.2)) (wrap_int a) l
  = wrap_int (a + InventorySpec.quantity_sum l).
Proof.
  revert a. induction l as [|pair l IH]; intros a; simpl.
  - by rewrite Z.add_0_r.
  - rewrite wrap_int_add_l, IH. f_equal. unfold Product.getQuantity. lia.
Qed.

Lemma getTotalQuantity_run inv :
  inventory_mutex_ inv = false →
  getTotalQuantity inv = Returned (wrap_int (InventorySpec.quantity_sum (entries inv))) inv.
Proof.
  intros Hfree. unfold getTotalQuantity. rewrite StoreFacts.guarded_run by done.
  rewrite run_bind. unfold get, mret, call_ret.
  change (entries (with_mutex true inv)) with (entries inv).
  rewrite StoreFacts.unlocked by done. f_equal.
  pose proof (wrapped_total (entries inv) 0) as Htotal.
  change (wrap_int 0) with 0 in Htotal. by rewrite Z.add_0_l in Htotal.
Qed.

Lemma quantity_sum_insert (m : gmap string Product.t) product_id p p' :
  m !! product_id = Some p →
  InventorySpec.quantity_sum (map_to_list (<[product_id := p']> m))
  = InventorySpec.quantity_sum (map_to_list m) - Product.quantity_ p + Product.quantity_ p'.
Proof.
  intros Hp. rewrite <- insert_delete_eq.
  rewrite (quantity_sum_perm _ _
             (map_to_list_insert (delete product_id m) product_id p'
                (lookup_delete_eq m product_id))).
  rewrite <- (quantity_sum_perm _ _ (map_to_list_delete m product_id p Hp)).
  simpl. lia.
Qed.

End TotalFacts.

(** X12. [getTotalQuantity] changes nothing, and it follows the updates:
    after an [addQuantity] that returned [true] the total is the former
    total plus the amount, after a [removeQuantity] that returned [true]
    the former total minus the amount, both as 32-bit [int]s. *)
Theorem getTotalQuantity_follows_updates product_id amount inv :
  Inventory.inventory_mutex_ inv = false →
  ∃ total,
    Inventory.getTotalQuantity inv = Returned total inv
    ∧ (∀ inv', Inventory.addQuantity product_id amount inv = Returned true inv' →
         Inventory.getTotalQuantity inv' = Returned (wrap_int (total + amount)) inv')
    ∧ (∀ inv', Inventory.removeQuantity product_id amount inv = Returned true inv' →
         Inventory.getTotalQuantity inv' = Returned (wrap_int (total - amount)) inv').
Proof.
  intros Hfree. rewrite TotalFacts.getTotalQuantity_run by done.
  eexists. split; [reflexivity|]. split; intros inv'.
  - rewrite InventoryFacts.addQuantity_run by done.
    destruct (Inventory.products_ inv !! product_id) as [p|] eqn:Hp; [|discriminate].
    destruct (amount <? 0); [discriminate|]. intros [= <-].
    rewrite TotalFacts.getTotalQuantity_run by done. f_equal.
    unfold Inventory.entries, InventorySpec.added. simpl.
    rewrite (TotalFacts.quantity_sum_insert _ _ p) by done. simpl.
    rewrite wrap_int_add_l, TotalFacts.wrap_int_add_r. f_equal. lia.
  - rewrite InventoryFacts.removeQuantity_run by done.
    destruct (Inventory.products_ inv !! product_id) as [p|] eqn:Hp; [|discriminate].
    destruct ((amount <? 0) || _); [discriminate|]. intros [= <-].
    rewrite TotalFacts.getTotalQuantity_run
      by (by rewrite InventoryFacts.removed_mutex). f_equal.
    unfold Inventory.entries. rewrite InventoryFacts.removed_products.
    rewrite (TotalFacts.quantity_sum_insert _ _ p) by done. simpl.
    rewrite TotalFacts.wrap_int_add_r.
    rewrite <- (Z.add_opp_r (wrap_int _)), wrap_int_add_l. f_equal. lia.
Qed.

(** X12 on the shop. *)
Lemma getTotalQuantity_follows_updates_witness :
  ∃ total,
    Inventory.getTotalQuantity shop = Returned total shop
    ∧ (∀ inv', Inventory.addQuantity "P1" 4 shop = Returned true inv' →
         Inventory.getTotalQuantity inv' = Returned (wrap_int (total + 4)) inv')
    ∧ (∀ inv', Inventory.removeQuantity "P1" 4 shop = Returned true inv' →
         Inventory.getTotalQuantity inv' = Returned (wrap_int (total - 4)) inv').
Proof. apply (getTotalQuantity_follows_updates "P1" 4 shop). reflexivity. Defined.

(** X13. [validateInventory] changes nothing, and its list of errors is
    empty exactly when no stocked product has a negative quantity, a price
    below zero, or is expired. *)
Theorem validateInventory_accepts_iff now inv :
  Inventory.inventory_mutex_ inv = false →
  ∃ errors,
    Inventory.validateInventory now inv = Returned errors inv
    ∧ (errors = [] ↔
       ∀ product_id p,
         Inventory.products_ inv !! product_id = Some p →
         0 ≤ Product.quantity_ p
         ∧ PrimFloat.ltb (Product.price_ p) 0%float = false
         ∧ Product.isExpired now p = false).
Proof.
  intros Hfree. unfold Inventory.validateInventory.
  rewrite StoreFacts.guarded_run by done.
  rewrite run_bind. unfold get, mret, call_ret.
  change (Inventory.entries (Inventory.with_mutex true inv))
    with (Inventory.entries inv).
  rewrite StoreFacts.unlocked by done.
  eexists. split; [reflexivity|].
  rewrite ValidationFacts.bind_nil, Forall_fmap, Forall_forall.
  assert (Hone : ∀ p, Inventory.product_errors now p = [] ↔
                      0 ≤ Product.quantity_ p
                      ∧ PrimFloat.ltb (Product.price_ p) 0%float = false
                      ∧ Product.isExpired now p = false).
  { intros p. unfold Inventory.product_errors, Product.getQuantity, Product.getPrice.
    destruct (Product.quantity_ p <? 0) eqn:Hq,
             (PrimFloat.ltb (Product.price_ p) 0%float),
             (Product.isExpired now p); simpl;
      (split; [intros Hnil|intros (H1 & H2 & H3)]);
      try discriminate; try (apply Z.ltb_lt in Hq; lia); try reflexivity.
    apply Z.ltb_ge in Hq. done. }
  split.
  - intros Hall pid p Hp. apply Hone.
    apply (Hall (pid, p)). by apply elem_of_map_to_list.
  - intros Hall [pid p] Hin. apply Hone.
    apply (Hall pid). by apply elem_of_map_to_list.
Qed.

(** X13 on the shop. *)
Lemma validateInventory_accepts_iff_witness :
  ∃ errors,
    Inventory.validateInventory 0 shop = Returned errors shop
    ∧ (errors = [] ↔
       ∀ product_id p,
         Inventory.products_ shop !! product_id = Some p →
         0 ≤ Product.quantity_ p
         ∧ PrimFloat.ltb (Product.price_ p) 0%float = false
         ∧ Product.isExpired 0 p = false).
Proof. apply (validateInventory_accepts_iff 0 shop). reflexivity. Defined.

(** ** Expiry over the whole stock *)

Module ExpiryListFacts.
Import Inventory.

Lemma getExpiredProducts_run now inv :
  inventory_mutex_ inv = false →
  getExpiredProducts now inv =
    Returned ((filter (λ pair, Product.isExpired now pair.2 = true) (entries inv)).*2)
             inv.
Proof.
  intros Hfree. unfold getExpiredProducts. rewrite StoreFacts.guarded_run by done.
  destruct inv as [ps mu d ct cbs log]; simpl in *; subst mu. reflexivity.
Qed.

Lemma getExpiringSoonProducts_run now days inv :
  inventory_mutex_ inv = false →
  getExpiringSoonProducts now days inv =
    Returned ((filter (λ pair, expires_soon now days pair.2 = true) (entries inv)).*2)
             inv.
Proof.
  intros Hfree. unfold getExpiringSoonProducts.
  rewrite StoreFacts.guarded_run by done.
  destruct inv as [ps mu d ct cbs log]; simpl in *; subst mu. reflexivity.
Qed.

Lemma elem_of_selected (P : string * Product.t → Prop)
    `{!∀ pair, Decision (P pair)} inv p :
  p ∈ (filter P (entries inv)).*2
  ↔ ∃ product_id, products_ inv !! product_id = Some p ∧ P (product_id, p).
Proof.
  rewrite list_elem_of_fmap. split.
  - intros ([pid p'] & -> & Hin). apply list_elem_of_filter in Hin as [HP Hin].
    apply elem_of_map_to_list in Hin. eauto.
  - intros (pid & Hp & HP). exists (pid, p). split; [done|].
    apply list_elem_of_filter. split; [done|]. by apply elem_of_map_to_list.
Qed.

Lemma expired_expires_soon now days p :
  Product.isExpired now p = true → expires_soon now days p = true.
Proof.
  unfold Product.isExpired, expires_soon, PerishableProduct.expiresSoon.
  destruct (Product.perishable_ p); [|discriminate]. by intros ->.
Qed.

End ExpiryListFacts.

(** X14. [getExpiredProducts] and [getExpiringSoonProducts] change
    nothing; the former returns exactly the stocked products that are
    expired, all of them perishable, and every one of them is also
    returned by [getExpiringSoonProducts], whatever number of days is
    asked for. *)
Theorem expired_products_expire_soon now days inv :
  Inventory.inventory_mutex_ inv = false →
  ∃ expired soon,
    Inventory.getExpiredProducts now inv = Returned expired inv
    ∧ Inventory.getExpiringSoonProducts now days inv = Returned soon inv
    ∧ (∀ p, p ∈ expired ↔
            ∃ product_id, Inventory.products_ inv !! product_id = Some p
                          ∧ Product.isExpired now p = true)
    ∧ (∀ p, p ∈ expired → is_Some (Product.perishable_ p) ∧ p ∈ soon).
Proof.
  intros Hfree.
  rewrite ExpiryListFacts.getExpiredProducts_run,
    ExpiryListFacts.getExpiringSoonProducts_run by done.
  eexists _, _. split_and!; [reflexivity..| |].
  - intros p. apply ExpiryListFacts.elem_of_selected.
  - intros p Hin. apply ExpiryListFacts.elem_of_selected in Hin as (pid & Hp & Hex).
    simpl in Hex. split.
    + unfold Product.isExpired in Hex.
      destruct (Product.perishable_ p); [by eexists|discriminate].
    + apply ExpiryListFacts.elem_of_selected. exists pid. split; [done|].
      simpl. by apply ExpiryListFacts.expired_expires_soon.
Qed.

(** X14 on the dairy one hour after the milk has expired: the milk is in
    both lists, even when asked for the products that expire within 0
    days. *)
Lemma expired_products_expire_soon_witness :
  ∃ expired soon,
    Inventory.getExpiredProducts (11 * ticks_per_hour) dairy = Returned expired dairy
    ∧ Inventory.getExpiringSoonProducts (11 * ticks_per_hour) 0 dairy
      = Returned soon dairy
    ∧ Product.Make "P3" "Milk" "Dairy" 2%float 4 0 (Some milk) ∈ expired
    ∧ Product.Make "P3" "Milk" "Dairy" 2%float 4 0 (Some milk) ∈ soon.
Proof.
  destruct (expired_products_expire_soon (11 * ticks_per_hour) 0 dairy eq_refl)
    as (expired & soon & Hexpired & Hsoon & Hiff & Hboth).
  exists expired, soon. split; [exact Hexpired|]. split; [exact Hsoon|].
  assert (Product.Make "P3" "Milk" "Dairy" 2%float 4 0 (Some milk) ∈ expired)
    as Hin.
  { apply Hiff. exists "P3". split; reflexivity. }
  split; [exact Hin|]. exact (proj2 (Hboth _ Hin)).
Defined.



(** ** The invariants of the inventory *)

Module ApiFacts.
Import Inventory.
Import ApiSpec.

Lemma checkAndSendLowStockAlerts_run inv :
  inventory_mutex_ inv = false →
  ∃ log,
    checkAndSendLowStockAlerts inv = Returned tt (with_delivered log inv).
Proof.
  intros Hfree. unfold checkAndSendLowStockAlerts.
  rewrite run_bind, StockListFacts.getLowStockProducts_run by done.
  destruct (bool_decide _).
  - exists (delivered_ inv). by destruct inv.
  - eexists. reflexivity.
Qed.

Lemma sound_insert product_id p inv :
  sound inv →
  0 ≤ Product.quantity_ p ≤ INT_MAX →
  Product.id_ p = product_id →
  sound (with_products (<[product_id := p]> (products_ inv)) inv).
Proof.
  intros (Hfree & Hok & Hkey) Hq Hid. split_and!; [done| |].
  - intros pid' p'. simpl. rewrite lookup_insert. case_decide.
    + by intros [= <-].
    + apply Hok.
  - intros pid' p'. simpl. rewrite lookup_insert. case_decide.
    + intros [= <-]. congruence.
    + apply Hkey.
Qed.

Lemma run_call_sound c inv :
  sound inv → call_fits c inv →
  ∃ inv', run_call c inv = Returned tt inv' ∧ sound inv'.
Proof.
  intros Hsound Hfit. pose proof Hsound as (Hfree & Hok & Hkey).
  destruct c as [product|pid|pid q|pid a|pid a|cat thr|cb|]; simpl in *;
    rewrite ?run_bind.
  - rewrite StoreFacts.addProduct_run by done.
    destruct (products_ inv !! Product.id_ product); [by eauto|].
    eexists. split; [reflexivity|]. by apply sound_insert.
  - rewrite StoreFacts.removeProduct_run by done.
    destruct (products_ inv !! pid) eqn:Hp; [|by eauto].
    eexists. split; [reflexivity|]. split_and!; [done| |].
    + intros pid' p'. simpl. rewrite lookup_delete. case_decide; [done|]. apply Hok.
    + intros pid' p'. simpl. rewrite lookup_delete. case_decide; [done|]. apply Hkey.
  - rewrite StoreFacts.updateQuantity_run by done.
    destruct (products_ inv !! pid) as [p|] eqn:Hp; [|by eauto].
    destruct (q <? 0) eqn:Hq; [by eauto|]. apply Z.ltb_ge in Hq.
    eexists. split; [reflexivity|]. apply sound_insert; [done|simpl; lia|].
    simpl. by apply Hkey.
  - rewrite InventoryFacts.addQuantity_run by done.
    destruct (products_ inv !! pid) as [p|] eqn:Hp; [|by eauto].
    destruct (a <? 0) eqn:Ha; [by eauto|]. apply Z.ltb_ge in Ha.
    eexists. split; [reflexivity|]. apply sound_insert; [done| |].
    + simpl. pose proof (Hok _ _ Hp) as Hp0. specialize (Hfit _ eq_refl).
      rewrite wrap_int_id; unfold in_int, INT_MIN, INT_MAX in *; lia.
    + simpl. by apply Hkey.
  - rewrite InventoryFacts.removeQuantity_run by done.
    destruct (products_ inv !! pid) as [p|] eqn:Hp; [|by eauto].
    destruct ((a <? 0) || _) eqn:Hbad; [by eauto|].
    apply orb_false_iff in Hbad as [Ha Hq].
    apply Z.ltb_ge in Ha. apply Z.ltb_ge in Hq. pose proof (Hok _ _ Hp) as Hp0.
    eexists. split; [reflexivity|]. split_and!.
    + by rewrite InventoryFacts.removed_mutex.
    + intros pid' p'. rewrite InventoryFacts.removed_products, lookup_insert.
      case_decide; [|apply Hok]. intros [= <-]. simpl.
      rewrite wrap_int_id; unfold in_int, INT_MIN, INT_MAX in *; lia.
    + intros pid' p'. rewrite InventoryFacts.removed_products, lookup_insert.
      case_decide; [|apply Hkey]. intros [= <-]. simpl. subst. by apply Hkey.
  - rewrite StoreFacts.setCategoryThreshold_run by done. by eauto.
  - rewrite StoreFacts.registerAlertCallback_run by done. by eauto.
  - destruct (checkAndSendLowStockAlerts_run inv Hfree) as [log ->]. by eauto.
Qed.

End ApiFacts.

(** X16. Starting from the empty inventory of the constructor, every
    sequence of [addProduct], [removeProduct], [updateQuantity],
    [addQuantity], [removeQuantity], [setCategoryThreshold],
    [registerAlertCallback] and [checkAndSendLowStockAlerts] calls whose
    quantities are [int]s and in which no [addQuantity] takes a quantity
    above [INT_MAX] returns, with the mutex released, every stocked
    quantity a non-negative [int], and every product filed under its own
    identifier. *)
Theorem inventory_calls_keep_it_sound default_threshold cs :
  ApiSpec.calls_fit cs (Inventory.create default_threshold) →
  ∃ inv,
    ApiSpec.run_calls cs (Inventory.create default_threshold) = Returned tt inv
    ∧ Inventory.inventory_mutex_ inv = false
    ∧ InventorySpec.stock_ok inv
    ∧ ApiSpec.keyed_by_id inv.
Proof.
  assert (Hgen : ∀ cs inv, ApiSpec.sound inv → ApiSpec.calls_fit cs inv →
                 ∃ inv', ApiSpec.run_calls cs inv = Returned tt inv'
                         ∧ ApiSpec.sound inv').
  { clear. induction cs as [|c cs IH]; intros inv Hsound Hfit; [by exists inv|].
    destruct Hfit as [Hc Hrest].
    destruct (ApiFacts.run_call_sound c inv Hsound Hc) as (inv1 & Hrun & Hsound1).
    destruct (IH inv1 Hsound1 (Hrest _ Hrun)) as (inv' & Hrun' & Hsound').
    exists inv'. split; [|done]. simpl. by rewrite run_bind, Hrun. }
  intros Hfit.
  assert (Hsound0 : ApiSpec.sound (Inventory.create default_threshold)).
  { split_and!; [done|intros pid p Hp|intros pid p Hp];
      simpl in Hp; by rewrite lookup_empty in Hp. }
  destruct (Hgen cs _ Hsound0 Hfit) as (inv & Hrun & Hsound).
  by exists inv.
Qed.

(** X16 on a short day of a shop. *)
Lemma inventory_calls_keep_it_sound_witness :
  ∃ inv,
    ApiSpec.run_calls
      [ApiSpec.AddProduct (widget 5); ApiSpec.RegisterAlertCallback 7%nat;
       ApiSpec.RemoveQuantity "P1" 2; ApiSpec.UpdateQuantity "P1" 40;
       ApiSpec.CheckAndSendLowStockAlerts; ApiSpec.RemoveProduct "P1"]
      (Inventory.create 10) = Returned tt inv
    ∧ Inventory.inventory_mutex_ inv = false
    ∧ InventorySpec.stock_ok inv
    ∧ ApiSpec.keyed_by_id inv.
Proof.
  apply inventory_calls_keep_it_sound.
  simpl. split; [vm_compute; split; discriminate|].
  intros inv1 H1. vm_compute in H1. injection H1 as <-.
  split; [exact I|].
  intros inv2 H2. vm_compute in H2. injection H2 as <-.
  split; [exact I|].
  intros inv3 H3. vm_compute in H3. injection H3 as <-.
  split; [vm_compute; discriminate|].
  intros inv4 H4. vm_compute in H4. injection H4 as <-.
  split; [exact I|].
  intros inv5 H5. vm_compute in H5. injection H5 as <-.
  split; [exact I|].
  intros inv6 H6. exact I.
Defined.

(** ** The lines of an order *)

Module LineFacts.
Import Order.

Lemma order_guarded_run {A} (body : M t A) o :
  order_mutex_ o = false →
  guarded body o =
    match body (with_mutex true o) with
    | Returned a o' => Returned a (with_mutex false o')
    | Deadlock => Deadlock
    end.
Proof.
  intros Hfree. unfold guarded, lock_guard, lock, unlock, modify.
  rewrite run_bind, Hfree, run_bind.
  destruct (body (with_mutex true o)); reflexivity.
Qed.

Lemma order_unlocked o :
  order_mutex_ o = false → with_mutex false (with_mutex true o) = o.
Proof. destruct o; simpl; intros ->; reflexivity. Qed.

Lemma addItem_not_pending product_id0 quantity0 unit_price0 o :
  order_mutex_ o = false →
  status_ o ≠ PENDING →
  addItem product_id0 quantity0 unit_price0 o = Returned false o.
Proof.
  intros Hfree Hst. unfold addItem.
  destruct (_ || _ || _); [reflexivity|].
  rewrite order_guarded_run by done. rewrite run_bind. unfold get, canModify.
  cbn [status_ with_mutex]. rewrite bool_decide_eq_false_2 by done.
  cbn [negb]. cbv iota. unfold mret, call_ret. by rewrite order_unlocked.
Qed.

Lemma find_item_none product_id0 items :
  (∀ item, item ∈ items → product_id item ≠ product_id0) →
  find_item product_id0 items = None.
Proof.
  intros Hnone. apply list_find_None, Forall_forall. exact Hnone.
Qed.

Lemma find_item_some product_id0 items i item :
  find_item product_id0 items = Some (i, item) →
  items !! i = Some item ∧ product_id item = product_id0.
Proof. intros (? & ? & _)%list_find_Some. done. Qed.

Lemma filter_alter_line product_id0 quantity0 (items : list OrderItem) i line :
  items !! i = Some line →
  product_id line = product_id0 →
  filter (λ item, product_id item ≠ product_id0)
         (alter (add_quantity quantity0) i items)
  = filter (λ item, product_id item ≠ product_id0) items.
Proof.
  intros Hi Hid. revert i Hi.
  induction items as [|x items IH]; intros [|i] Hi; try done.
  - simpl in Hi. injection Hi as ->.
    change (alter (add_quantity quantity0) 0%nat (line :: items))
      with (add_quantity quantity0 line :: items).
    rewrite !filter_cons.
    rewrite decide_False by (simpl; by intros ?).
    by rewrite decide_False by (by intros ?).
  - change (alter (add_quantity quantity0) (S i) (x :: items))
      with (x :: alter (add_quantity quantity0) i items).
    rewrite !filter_cons, (IH _ Hi). done.
Qed.

(** While [order_mutex_] is held no call that takes it returns. *)
Lemma order_guarded_held {A} (body : M t A) o :
  order_mutex_ o = true → guarded body o = Deadlock.
Proof.
  intros Hheld. unfold guarded, lock_guard, lock.
  by rewrite run_bind, Hheld.
Qed.

(** A call that changes the lines and then recomputes the total does not
    return. *)
Lemma changing_lines_blocks items o :
  order_mutex_ o = false →
  (modify (with_items items);; updateTotalAmount;; mret true)
    (with_mutex true o) = Deadlock.
Proof.
  intros Hfree. rewrite run_bind. unfold modify at 1. rewrite run_bind.
  by rewrite OrderFacts.updateTotalAmount_held.
Qed.

(** No call ever changes the lines of an order: whatever the state of
    the order, an [addItem], [removeItem] or [updateItemQuantity] that
    returns has returned [false] and left the order as it was. *)
Lemma line_calls_return_false product_id0 amount price o result o' :
  (addItem product_id0 amount price o = Returned result o' →
   result = false ∧ o' = o)
  ∧ (removeItem product_id0 o = Returned result o' → result = false ∧ o' = o)
  ∧ (updateItemQuantity product_id0 amount o = Returned result o' →
     result = false ∧ o' = o).
Proof.
  assert (Hremove : removeItem product_id0 o = Returned result o' →
                    result = false ∧ o' = o).
  { unfold removeItem. destruct (order_mutex_ o) eqn:Hmutex.
    { by rewrite order_guarded_held. }
    rewrite order_guarded_run by done. rewrite run_bind. unfold get, canModify.
    cbn [status_ items_ with_mutex].
    destruct (bool_decide (status_ o = PENDING)); cbn [negb]; cbv iota.
    - destruct (find_item product_id0 (items_ o)) as [[i item]|].
      + by rewrite changing_lines_blocks.
      + unfold mret, call_ret. rewrite order_unlocked by done.
        by intros [= <- <-].
    - unfold mret, call_ret. rewrite order_unlocked by done.
      by intros [= <- <-]. }
  split_and!; [|exact Hremove|].
  - unfold addItem. destruct (_ || _ || _); [by intros [= <- <-]|].
    destruct (order_mutex_ o) eqn:Hmutex.
    { by rewrite order_guarded_held. }
    rewrite order_guarded_run by done. rewrite run_bind. unfold get, canModify.
    cbn [status_ items_ with_mutex].
    destruct (bool_decide (status_ o = PENDING)); cbn [negb]; cbv iota.
    + by rewrite changing_lines_blocks.
    + unfold mret, call_ret. rewrite order_unlocked by done.
      by intros [= <- <-].
  - unfold updateItemQuantity. destruct (amount <=? 0); [exact Hremove|].
    destruct (order_mutex_ o) eqn:Hmutex.
    { by rewrite order_guarded_held. }
    rewrite order_guarded_run by done. rewrite run_bind. unfold get, canModify.
    cbn [status_ items_ with_mutex].
    destruct (bool_decide (status_ o = PENDING)); cbn [negb]; cbv iota.
    + destruct (find_item product_id0 (items_ o)) as [[i item]|].
      * by rewrite changing_lines_blocks.
      * unfold mret, call_ret. rewrite order_unlocked by done.
        by intros [= <- <-].
    + unfold mret, call_ret. rewrite order_unlocked by done.
      by intros [= <- <-].
Qed.

(** Where a valid [addItem] on a PENDING order stands when it calls
    [updateTotalAmount]: the mutex taken, the line put. *)
Lemma addItem_reaches_updateTotalAmount product_id0 quantity0 unit_price0 o :
  order_mutex_ o = false →
  status_ o = PENDING →
  product_id0 ≠ "" → 0 < quantity0 → PrimFloat.ltb unit_price0 0%float = false →
  addItem product_id0 quantity0 unit_price0 o =
    match updateTotalAmount
            (with_items (put_item product_id0 quantity0 unit_price0 (items_ o))
                        (with_mutex true o)) with
    | Returned _ o' => Returned true (with_mutex false o')
    | Deadlock => Deadlock
    end.
Proof.
  intros Hfree Hst Hid Hq Hprice. unfold addItem.
  rewrite bool_decide_eq_false_2 by done. rewrite Hprice.
  replace (quantity0 <=? 0) with false by (symmetry; apply Z.leb_gt; lia).
  cbn [orb]. rewrite order_guarded_run by done. rewrite run_bind.
  unfold get, canModify. cbn [status_ items_ with_mutex].
  rewrite bool_decide_eq_true_2 by done. cbn [negb]. cbv iota.
  rewrite run_bind. unfold modify at 1. rewrite run_bind.
  by destruct (updateTotalAmount _).
Qed.

End LineFacts.

(** X17. On an order that is not PENDING, [addItem], [removeItem] and
    [updateItemQuantity] all return [false] and leave the order as it
    was. *)
Theorem item_mutation_needs_pending product_id0 quantity0 unit_price0 o :
  Order.order_mutex_ o = false →
  Order.status_ o ≠ PENDING →
  Order.addItem product_id0 quantity0 unit_price0 o = Returned false o
  ∧ Order.removeItem product_id0 o = Returned false o
  ∧ Order.updateItemQuantity product_id0 quantity0 o = Returned false o.
Proof.
  intros Hfree Hst. split_and!.
  - by apply LineFacts.addItem_not_pending.
  - by apply OrderFacts.removeItem_not_pending.
  - by apply OrderFacts.updateItemQuantity_not_pending.
Qed.

(** X17 on a confirmed order. *)
Lemma item_mutation_needs_pending_witness :
  let o := Order.with_status CONFIRMED one_line_order in
  Order.addItem "P2" 1 3%float o = Returned false o
  ∧ Order.removeItem "P2" o = Returned false o
  ∧ Order.updateItemQuantity "P2" 1 o = Returned false o.
Proof.
  apply (item_mutation_needs_pending "P2" 1 3%float
           (Order.with_status CONFIRMED one_line_order)).
  - reflexivity.
  - discriminate.
Defined.

(** X18. [addItem] with an empty product identifier, a quantity that is
    not positive, or a unit price below zero returns [false] before it
    takes the mutex: it returns from every state of the order, even with
    the mutex held, and changes nothing. *)
Theorem addItem_rejects_bad_arguments product_id0 quantity0 unit_price0 o :
  product_id0 = "" ∨ quantity0 ≤ 0 ∨ PrimFloat.ltb unit_price0 0%float = true →
  Order.addItem product_id0 quantity0 unit_price0 o = Returned false o.
Proof.
  intros Hbad. unfold Order.addItem.
  replace (bool_decide (product_id0 = "") || (quantity0 <=? 0)
           || PrimFloat.ltb unit_price0 0%float) with true; [reflexivity|].
  symmetry. destruct Hbad as [-> | [Hq | ->]].
  - reflexivity.
  - apply Z.leb_le in Hq. rewrite Hq. by rewrite orb_true_r.
  - by rewrite orb_true_r.
Qed.

(** X18 on a quantity of zero, with the mutex held. *)
Lemma addItem_rejects_bad_arguments_witness :
  Order.addItem "P1" 0 5%float (Order.with_mutex true new_order)
    = Returned false (Order.with_mutex true new_order).
Proof.
  apply (addItem_rejects_bad_arguments "P1" 0 5%float
           (Order.with_mutex true new_order)).
  right. left. reflexivity.
Defined.

(** X19. On a PENDING order without a line for the product, [getItem]
    finds nothing, [removeItem] returns [false], and [updateItemQuantity]
    returns [false] whatever the quantity: it does not add the line. The
    order is left as it was. *)
Theorem no_line_no_update product_id0 new_quantity o :
  Order.order_mutex_ o = false →
  Order.status_ o = PENDING →
  (∀ item, item ∈ Order.items_ o → product_id item ≠ product_id0) →
  Order.getItem product_id0 o = Returned None o
  ∧ Order.removeItem product_id0 o = Returned false o
  ∧ Order.updateItemQuantity product_id0 new_quantity o = Returned false o.
Proof.
  intros Hfree Hst Hnone. apply LineFacts.find_item_none in Hnone.
  assert (Hremove : Order.removeItem product_id0 o = Returned false o).
  { unfold Order.removeItem. rewrite LineFacts.order_guarded_run by done.
    rewrite run_bind. unfold get, Order.canModify.
    cbn [Order.status_ Order.items_ Order.with_mutex].
    rewrite Hst, Hnone. simpl. by rewrite LineFacts.order_unlocked. }
  split_and!; [|done|].
  - unfold Order.getItem. rewrite LineFacts.order_guarded_run by done.
    rewrite run_bind. unfold get.
    cbn [Order.items_ Order.with_mutex]. rewrite Hnone. simpl.
    by rewrite LineFacts.order_unlocked.
  - unfold Order.updateItemQuantity. destruct (new_quantity <=? 0); [done|].
    rewrite LineFacts.order_guarded_run by done.
    rewrite run_bind. unfold get, Order.canModify.
    cbn [Order.status_ Order.items_ Order.with_mutex].
    rewrite Hst, Hnone. simpl. by rewrite LineFacts.order_unlocked.
Qed.

(** X19 on the gadget, which the order of two widgets does not list. *)
Lemma no_line_no_update_witness :
  Order.getItem "P2" one_line_order = Returned None one_line_order
  ∧ Order.removeItem "P2" one_line_order = Returned false one_line_order
  ∧ Order.updateItemQuantity "P2" 3 one_line_order = Returned false one_line_order.
Proof.
  apply (no_line_no_update "P2" 3 one_line_order).
  - reflexivity.
  - reflexivity.
  - intros item Hin. simpl in Hin. apply list_elem_of_singleton in Hin as ->.
    discriminate.
Defined.

(** X20. The update [addItem] makes to the lines keeps one line per
    product: if no two lines had the same product before, none have
    after, the product added has a line, and the lines of the other
    products are the ones there were, in the same order. *)
Theorem put_item_one_line_per_product product_id0 quantity0 unit_price0 items :
  NoDup (product_id <$> items) →
  NoDup (product_id <$> Order.put_item product_id0 quantity0 unit_price0 items)
  ∧ product_id0 ∈ product_id <$> Order.put_item product_id0 quantity0 unit_price0 items
  ∧ filter (λ item, product_id item ≠ product_id0)
           (Order.put_item product_id0 quantity0 unit_price0 items)
    = filter (λ item, product_id item ≠ product_id0) items.
Proof.
  intros Hnodup. unfold Order.put_item.
  destruct (Order.find_item product_id0 items) as [[i line]|] eqn:Hfind.
  - apply LineFacts.find_item_some in Hfind as [Hi Hid].
    assert (Hids : product_id <$> alter (Order.add_quantity quantity0) i items
                   = product_id <$> items).
    { rewrite (list_fmap_alter product_id _ id)
        by (apply Forall_forall; by intros ? ?).
      by apply list_alter_id. }
    rewrite Hids. split_and!; [done| |].
    + apply list_elem_of_fmap. exists line. split; [done|].
      by eapply list_elem_of_lookup_2.
    + by apply (LineFacts.filter_alter_line _ _ _ _ line).
  - apply list_find_None in Hfind. rewrite fmap_app. simpl. split_and!.
    + apply NoDup_app. split_and!; [done| |apply NoDup_singleton].
      intros pid Hin Hin'. apply list_elem_of_singleton in Hin' as ->.
      apply list_elem_of_fmap in Hin as (item & Heq & Hin).
      rewrite Forall_forall in Hfind. by apply (Hfind item Hin).
    + apply elem_of_app. right. by left.
    + rewrite filter_app. simpl. rewrite filter_cons, decide_False by (simpl; by intros ?).
      by rewrite filter_nil, app_nil_r.
Qed.

(** X20 on a second addition of widgets. *)
Lemma put_item_one_line_per_product_witness :
  NoDup (product_id <$> Order.put_item "P1" 3 5%float (Order.items_ one_line_order))
  ∧ "P1" ∈ product_id <$> Order.put_item "P1" 3 5%float (Order.items_ one_line_order)
  ∧ filter (λ item, product_id item ≠ "P1")
           (Order.put_item "P1" 3 5%float (Order.items_ one_line_order))
    = filter (λ item, product_id item ≠ "P1") (Order.items_ one_line_order).
Proof.
  apply (put_item_one_line_per_product "P1" 3 5%float (Order.items_ one_line_order)).
  simpl. apply NoDup_singleton.
Defined.

(** ** The life of an order *)

Module StatusFacts.
Import Order.
Import StatusSpec.

Lemma run_status_call_result now c o :
  order_mutex_ o = false →
  ∃ ok o',
    run_status_call now c o = Returned ok o'
    ∧ order_mutex_ o' = false
    ∧ items_ o' = items_ o
    ∧ total_amount_ o' = total_amount_ o
    ∧ (ok = false → o' = o)
    ∧ (status_ o ≠ PENDING → status_ o' ≠ PENDING)
    ∧ (status_ o = DELIVERED ∨ status_ o = CANCELLED → status_ o' = status_ o)
    ∧ (rank (status_ o) ≤ rank (status_ o'))%nat
    ∧ (ok = true → (∃ new_status, c = UpdateStatus new_status) →
       (rank (status_ o) < rank (status_ o'))%nat).
Proof.
  intros Hfree. destruct c as [new_status|reason]; simpl.
  - rewrite OrderFacts.updateStatus_run by done.
    destruct (transition_allowed (status_ o) new_status) eqn:Hallowed.
    + eexists true, _. split; [reflexivity|]. unfold OrderSpec.moved.
      destruct (status_ o) eqn:Hst, new_status; try discriminate Hallowed;
        destruct o; simpl in *; subst;
        split_and!; try done; try lia; try (by intros [? | ?]); try (intros; lia).
    + eexists false, o. by split_and!.
  - rewrite OrderFacts.cancelOrder_run by done.
    destruct (status_ o) eqn:Hst; simpl;
      eexists _, _; (split; [reflexivity|]);
      destruct (negb (bool_decide (reason = "")));
      destruct o; simpl in *; subst;
      split_and!; try done; try lia; try (by intros [? | ?]);
      try (by intros _ [? ?]).
Qed.

End StatusFacts.

(** X21. Every sequence of [updateStatus] and [cancelOrder] calls on an
    order returns, and none of the calls touches the lines or the total.
    An order that has left PENDING is never PENDING again, and an order
    that is DELIVERED or CANCELLED keeps that status for ever. *)
Theorem status_calls_never_reopen now cs o :
  Order.order_mutex_ o = false →
  ∃ oks o',
    StatusSpec.run_status_calls now cs o = Returned oks o'
    ∧ length oks = length cs
    ∧ Order.items_ o' = Order.items_ o
    ∧ Order.total_amount_ o' = Order.total_amount_ o
    ∧ (Order.status_ o ≠ PENDING → Order.status_ o' ≠ PENDING)
    ∧ (Order.status_ o = DELIVERED ∨ Order.status_ o = CANCELLED →
       Order.status_ o' = Order.status_ o).
Proof.
  revert o. induction cs as [|c cs IH]; intros o Hfree.
  - exists [], o. by split_and!.
  - destruct (StatusFacts.run_status_call_result now c o Hfree)
      as (ok & o1 & Hrun & Hfree1 & Hitems & Htotal & _ & Hpending & Hfinal & _).
    destruct (IH o1 Hfree1)
      as (oks & o' & Hrun' & Hlen & Hitems' & Htotal' & Hpending' & Hfinal').
    exists (ok :: oks), o'. split_and!.
    + cbn [StatusSpec.run_status_calls]. rewrite run_bind, Hrun, run_bind, Hrun'.
      reflexivity.
    + simpl. by rewrite Hlen.
    + congruence.
    + congruence.
    + auto.
    + intros Hst. rewrite <- (Hfinal Hst). apply Hfinal'.
      rewrite (Hfinal Hst). exact Hst.
Qed.

(** X21 on a shipped order that someone tries to cancel and to reopen. *)
Lemma status_calls_never_reopen_witness :
  let o := Order.with_status SHIPPED one_line_order in
  ∃ oks o',
    StatusSpec.run_status_calls 9
      [StatusSpec.CancelOrder "late"; StatusSpec.UpdateStatus PENDING;
       StatusSpec.UpdateStatus DELIVERED; StatusSpec.CancelOrder ""] o
      = Returned oks o'
    ∧ length oks = 4%nat
    ∧ Order.items_ o' = Order.items_ o
    ∧ Order.total_amount_ o' = Order.total_amount_ o
    ∧ (Order.status_ o ≠ PENDING → Order.status_ o' ≠ PENDING)
    ∧ (Order.status_ o = DELIVERED ∨ Order.status_ o = CANCELLED →
       Order.status_ o' = Order.status_ o).
Proof.
  apply (status_calls_never_reopen 9
           [StatusSpec.CancelOrder "late"; StatusSpec.UpdateStatus PENDING;
            StatusSpec.UpdateStatus DELIVERED; StatusSpec.CancelOrder ""]
           (Order.with_status SHIPPED one_line_order)).
  reflexivity.
Defined.

(** X22. The status only moves forward: in every sequence of
    [updateStatus] calls at most four succeed (PENDING, PROCESSING,
    CONFIRMED, SHIPPED, DELIVERED is the longest life), and fewer when the
    order has already advanced. *)
Theorem at_most_four_status_updates now new_statuses o :
  Order.order_mutex_ o = false →
  ∃ oks o',
    StatusSpec.run_status_calls now (StatusSpec.UpdateStatus <$> new_statuses) o
      = Returned oks o'
    ∧ (length (filter (λ ok, ok = true) oks)
       ≤ 4 - StatusSpec.rank (Order.status_ o))%nat.
Proof.
  revert o. induction new_statuses as [|new_status rest IH]; intros o Hfree.
  - exists [], o. split; [reflexivity|]. simpl. lia.
  - destruct (StatusFacts.run_status_call_result now
                (StatusSpec.UpdateStatus new_status) o Hfree)
      as (ok & o1 & Hrun & Hfree1 & _ & _ & Hsame & _ & _ & Hle & Hlt).
    destruct (IH o1 Hfree1) as (oks & o' & Hrun' & Hcount).
    exists (ok :: oks), o'. split.
    + cbn [fmap list_fmap StatusSpec.run_status_calls].
      rewrite run_bind, Hrun, run_bind. 
      change (list_fmap _ _ StatusSpec.UpdateStatus rest)
        with (StatusSpec.UpdateStatus <$> rest).
      rewrite Hrun'. reflexivity.
    + rewrite filter_cons. destruct ok.
      * rewrite decide_True by done. simpl.
        assert (StatusSpec.rank (Order.status_ o)
                < StatusSpec.rank (Order.status_ o1))%nat by (apply Hlt; eauto).
        assert (StatusSpec.rank (Order.status_ o1) ≤ 4)%nat
          by (destruct (Order.status_ o1); simpl; lia).
        lia.
      * rewrite decide_False by done. rewrite (Hsame eq_refl) in Hcount. exact Hcount.
Qed.

(** X22 on six attempts on a new order. *)
Lemma at_most_four_status_updates_witness :
  ∃ oks o',
    StatusSpec.run_status_calls 9
      (StatusSpec.UpdateStatus
         <$> [PROCESSING; PENDING; CONFIRMED; SHIPPED; DELIVERED; CANCELLED])
      new_order = Returned oks o'
    ∧ (length (filter (λ ok, ok = true) oks)
       ≤ 4 - StatusSpec.rank (Order.status_ new_order))%nat.
Proof.
  apply (at_most_four_status_updates 9
           [PROCESSING; PENDING; CONFIRMED; SHIPPED; DELIVERED; CANCELLED]
           new_order).
  reflexivity.
Defined.

(** ** Processing time and customer *)

Module DurationFacts.
Import Order.

Lemma getProcessingDuration_run o :
  order_mutex_ o = false →
  getProcessingDuration o =
    Returned (if bool_decide (processed_date_ o = 0) then -1
              else Z.quot (wrap_i64 (processed_date_ o - order_date_ o))
                          ticks_per_millisecond) o.
Proof.
  intros Hfree. unfold getProcessingDuration. rewrite LineFacts.order_guarded_run by done.
  rewrite run_bind. unfold get.
  cbn [processed_date_ order_date_ with_mutex].
  destruct (bool_decide (processed_date_ o = 0)); unfold mret, call_ret;
    by rewrite LineFacts.order_unlocked.
Qed.

End DurationFacts.

(** X23. [getProcessingDuration] answers [-1] as long as the processed
    date is at the epoch, as on a new order. After an [updateStatus] to
    CONFIRMED or FAILED that succeeded at a time other than the epoch it
    answers the milliseconds from the order date to that time, rounded
    toward zero; a successful [updateStatus] to any other status leaves
    the answer as it was. *)
Theorem getProcessingDuration_after_update now new_status o o' :
  Order.order_mutex_ o = false →
  - 2 ^ 63 ≤ now - Order.order_date_ o < 2 ^ 63 →
  Order.updateStatus now new_status o = Returned true o' →
  (Order.processed_date_ o = 0 → Order.getProcessingDuration o = Returned (-1) o)
  ∧ (new_status = CONFIRMED ∨ new_status = FAILED →
     now ≠ 0 →
     Order.getProcessingDuration o'
       = Returned (Z.quot (now - Order.order_date_ o) Order.ticks_per_millisecond) o')
  ∧ (new_status ≠ CONFIRMED → new_status ≠ FAILED →
     ∃ duration,
       Order.getProcessingDuration o = Returned duration o
       ∧ Order.getProcessingDuration o' = Returned duration o').
Proof.
  intros Hfree Hrange. rewrite OrderFacts.updateStatus_run by done.
  destruct (Order.transition_allowed _ _); [|discriminate]. intros [= <-].
  assert (Hfree' : Order.order_mutex_ (OrderSpec.moved now new_status o) = false).
  { unfold OrderSpec.moved. by case_match. }
  rewrite !DurationFacts.getProcessingDuration_run by done.
  split_and!.
  - intros ->. reflexivity.
  - intros Hnew Hnow. unfold OrderSpec.moved.
    replace (bool_decide (new_status = CONFIRMED) || bool_decide (new_status = FAILED))
      with true
      by (destruct Hnew as [-> | ->]; reflexivity).
    cbn [Order.processed_date_ Order.order_date_ Order.with_processed_date
         Order.with_status].
    rewrite bool_decide_eq_false_2 by done.
    rewrite wrap_i64_id by exact Hrange. reflexivity.
  - intros Hc Hf. eexists. split; [reflexivity|]. unfold OrderSpec.moved.
    rewrite (bool_decide_eq_false_2 (new_status = CONFIRMED)) by done.
    rewrite (bool_decide_eq_false_2 (new_status = FAILED)) by done.
    reflexivity.
Qed.

(** X23 on an order placed at tick 0 and confirmed 2.5 milliseconds
    later. *)
Lemma getProcessingDuration_after_update_witness :
  let o := Order.with_status PROCESSING new_order in
  let o' := OrderSpec.moved 2500000 CONFIRMED o in
  (Order.processed_date_ o = 0 → Order.getProcessingDuration o = Returned (-1) o)
  ∧ (CONFIRMED = CONFIRMED ∨ CONFIRMED = FAILED →
     2500000 ≠ 0 →
     Order.getProcessingDuration o'
       = Returned (Z.quot (2500000 - Order.order_date_ o) Order.ticks_per_millisecond) o')
  ∧ (CONFIRMED ≠ CONFIRMED → CONFIRMED ≠ FAILED →
     ∃ duration,
       Order.getProcessingDuration o = Returned duration o
       ∧ Order.getProcessingDuration o' = Returned duration o').
Proof.
  apply (getProcessingDuration_after_update 2500000 CONFIRMED
           (Order.with_status PROCESSING new_order)).
  - reflexivity.
  - vm_compute. split; [discriminate|reflexivity].
  - reflexivity.
Defined.



(** ** The manager of the orders *)

Module ManagerFacts.
Import OrderManager.
Import ManagerSpec.

Lemma manager_guarded_run {A} (body : M t A) mgr :
  orders_mutex_ mgr = false →
  guarded body mgr =
    match body (with_mutex true mgr) with
    | Returned a mgr' => Returned a (with_mutex false mgr')
    | Deadlock => Deadlock
    end.
Proof.
  intros Hfree. unfold guarded, lock_guard, lock, unlock, modify.
  rewrite run_bind, Hfree, run_bind.
  destruct (body (with_mutex true mgr)); reflexivity.
Qed.

Lemma manager_unlocked mgr :
  orders_mutex_ mgr = false → with_mutex false (with_mutex true mgr) = mgr.
Proof. destruct mgr; simpl; intros ->; reflexivity. Qed.

Lemma getStatus_run o :
  Order.order_mutex_ o = false → Order.getStatus o = Returned (Order.status_ o) o.
Proof.
  intros Hfree. unfold Order.getStatus. rewrite LineFacts.order_guarded_run by done.
  rewrite run_bind. unfold get, mret, call_ret. cbn [Order.status_ Order.with_mutex].
  by rewrite LineFacts.order_unlocked.
Qed.

Lemma getStatus_held o :
  Order.order_mutex_ o = true → Order.getStatus o = Deadlock.
Proof. intros Hheld. unfold Order.getStatus. run. by rewrite Hheld. Qed.

(** A call of [getStatus] through an entry whose order is at rest gives
    the status and leaves the manager as it was. *)
Lemma order_call_getStatus order_id order mgr :
  orders_ mgr !! order_id = Some order →
  Order.order_mutex_ order = false →
  order_call order_id order Order.getStatus mgr
    = Returned (Order.status_ order) mgr.
Proof.
  intros Hlookup Hfree. unfold order_call. rewrite getStatus_run by done.
  rewrite insert_id by done. by destruct mgr.
Qed.

Lemma createOrder_run now order_id customer_id mgr :
  orders_mutex_ mgr = false →
  createOrder now order_id customer_id mgr =
    match orders_ mgr !! order_id with
    | Some _ => Returned (inr None) mgr
    | None =>
        match Order.create now order_id customer_id with
        | None =>
            Returned (inl (invalid_argument
                             (if bool_decide (order_id = "")
                              then "Order ID cannot be empty"
                              else "Customer ID cannot be empty"))) mgr
        | Some order =>
            Returned (inr (Some order_id))
                     (with_orders (<[order_id := order]> (orders_ mgr)) mgr)
        end
    end.
Proof.
  intros Hfree. unfold createOrder. rewrite manager_guarded_run by done.
  rewrite run_bind. unfold get. cbn [orders_ with_mutex].
  destruct (orders_ mgr !! order_id).
  - unfold mret, call_ret. by rewrite manager_unlocked.
  - destruct (Order.create now order_id customer_id).
    + destruct mgr; simpl in *; by subst.
    + unfold mret, call_ret. by rewrite manager_unlocked.
Qed.

Lemma getOrder_run order_id mgr :
  orders_mutex_ mgr = false →
  getOrder order_id mgr = Returned (orders_ mgr !! order_id) mgr.
Proof.
  intros Hfree. unfold getOrder. rewrite manager_guarded_run by done.
  rewrite run_bind. unfold get, mret, call_ret. cbn [orders_ with_mutex].
  by rewrite manager_unlocked.
Qed.

Lemma with_orders_same mgr : with_orders (orders_ mgr) mgr = mgr.
Proof. by destruct mgr. Qed.

Lemma completed_dec status :
  bool_decide (status = DELIVERED) || bool_decide (status = CANCELLED) = true
  ↔ completed status.
Proof.
  unfold completed. rewrite orb_true_iff, !bool_decide_eq_true. tauto.
Qed.

(** The loop of [clearCompletedOrders] over entries of the map that are
    at rest: it erases the completed ones and counts them. *)
Lemma clear_completed_run entries : ∀ cleared mgr,
  NoDup entries.*1 →
  (∀ id o, (id, o) ∈ entries →
     orders_ mgr !! id = Some o ∧ Order.order_mutex_ o = false) →
  ∃ m' n,
    clear_completed entries (wrap_int cleared) mgr
      = Returned (wrap_int (cleared + Z.of_nat n)) (with_orders m' mgr)
    ∧ (size m' + n = size (orders_ mgr))%nat
    ∧ ∀ id o, m' !! id = Some o ↔
        orders_ mgr !! id = Some o
        ∧ ¬ ((id, o) ∈ entries ∧ completed (Order.status_ o)).
Proof.
  induction entries as [|[id0 o0] rest IH]; intros cleared mgr Hnodup Hin.
  - exists (orders_ mgr), 0%nat. cbn [clear_completed].
    rewrite with_orders_same, Z.add_0_r.
    split_and!; [done|lia|]. intros id o. rewrite elem_of_nil. tauto.
  - cbn [fmap list_fmap fst] in Hnodup. apply NoDup_cons in Hnodup as [Hfresh Hnodup].
    destruct (Hin id0 o0) as [Hlookup Hfree]; [left|].
    cbn [clear_completed fst snd]. rewrite run_bind.
    rewrite order_call_getStatus by done.
    destruct (bool_decide (Order.status_ o0 = DELIVERED)
              || bool_decide (Order.status_ o0 = CANCELLED)) eqn:Hdone.
    + apply completed_dec in Hdone.
      rewrite run_bind. unfold get at 1. rewrite run_bind. unfold modify at 1.
      rewrite wrap_int_add_l.
      destruct (IH (cleared + 1) (with_orders (delete id0 (orders_ mgr)) mgr))
        as (m' & n & Hrun & Hsize & Hiff); [done| |].
      { intros id o Helem. destruct (Hin id o) as [Hl Hf]; [by right|].
        split; [|done]. cbn [orders_ with_orders].
        rewrite lookup_delete_ne; [done|].
        intros <-. apply Hfresh. apply list_elem_of_fmap. by exists (id0, o). }
      exists m', (S n). rewrite Hrun. cbn [orders_ with_orders] in *.
      split_and!.
      * f_equal. f_equal. lia.
      * pose proof (map_size_delete id0 (orders_ mgr)) as Hdel.
        rewrite Hlookup in Hdel.
        assert (size (orders_ mgr) ≠ 0%nat)
          by (apply map_size_ne_0_lookup; by exists id0, o0).
        lia.
      * intros id o. rewrite Hiff. destruct (decide (id = id0)) as [->|Hne].
        -- rewrite lookup_delete_eq. split; [by intros [? _]|].
           intros [Hsome Hnot]. rewrite Hlookup in Hsome. injection Hsome as <-.
           exfalso. apply Hnot. split; [left|done].
        -- rewrite lookup_delete_ne by done. rewrite elem_of_cons.
           split; intros [Hsome Hnot]; (split; [done|]).
           ++ intros [[Heq|Helem] Hc]; [congruence|]. by apply Hnot.
           ++ intros [Helem Hc]. apply Hnot. split; [by right|done].
    + destruct (IH cleared mgr) as (m' & n & Hrun & Hsize & Hiff); [done| |].
      { intros id o Helem. apply Hin. by right. }
      exists m', n. rewrite Hrun. split_and!; [done|done|].
      intros id o. rewrite Hiff, elem_of_cons.
      split; intros [Hsome Hnot]; (split; [done|]).
      * intros [[Heq|Helem] Hc]; [|by apply Hnot].
        injection Heq as -> ->. apply completed_dec in Hc. congruence.
      * intros [Helem Hc]. apply Hnot. split; [by right|done].
Qed.

(** The loop of [getOrdersByStatus] over entries of the map that are at
    rest: it appends the keys of the orders of that status. *)
Lemma collect_by_status_run status entries : ∀ result mgr,
  (∀ id o, (id, o) ∈ entries →
     orders_ mgr !! id = Some o ∧ Order.order_mutex_ o = false) →
  collect_by_status status entries result mgr
    = Returned (result ++ (filter (λ entry, Order.status_ entry.2 = status)
                                  entries).*1) mgr.
Proof.
  induction entries as [|[id0 o0] rest IH]; intros result mgr Hin.
  - cbn [collect_by_status]. rewrite filter_nil. cbn. by rewrite app_nil_r.
  - destruct (Hin id0 o0) as [Hlookup Hfree]; [left|].
    cbn [collect_by_status fst snd]. rewrite run_bind.
    rewrite order_call_getStatus by done.
    rewrite IH by (intros id o Helem; apply Hin; by right).
    rewrite filter_cons. cbn [snd]. case_bool_decide as Hstatus.
    + rewrite decide_True by done. cbn [fmap list_fmap fst].
      by rewrite <- app_assoc.
    + by rewrite decide_False by done.
Qed.

(** The same loop when the mutex of one of the orders is held. *)
Lemma collect_by_status_held status entries : ∀ result mgr,
  (∀ id o, (id, o) ∈ entries → orders_ mgr !! id = Some o) →
  (∃ id o, (id, o) ∈ entries ∧ Order.order_mutex_ o = true) →
  collect_by_status status entries result mgr = Deadlock.
Proof.
  induction entries as [|[id0 o0] rest IH]; intros result mgr Hin Hheld.
  - destruct Hheld as (id & o & Helem & _). by apply elem_of_nil in Helem.
  - cbn [collect_by_status fst snd]. rewrite run_bind.
    destruct (Order.order_mutex_ o0) eqn:Hmutex.
    + unfold order_call. by rewrite getStatus_held.
    + rewrite order_call_getStatus; [|apply Hin; left|done].
      apply IH.
      * intros id o Helem. apply Hin. by right.
      * destruct Hheld as (id & o & Helem & Hm).
        apply elem_of_cons in Helem as [Heq|Helem]; [|by eauto].
        injection Heq as -> ->. congruence.
Qed.

Lemma count_results (results : list bool) :
  length results
    = (length (filter (λ b, b = true) results)
       + length (filter (λ b, b = false) results))%nat.
Proof.
  induction results as [|[] rest IH]; [done|..];
    rewrite !filter_cons; cbn [length];
    [rewrite decide_True, decide_False by done
    |rewrite decide_False, decide_True by done];
    cbn [length]; lia.
Qed.

Lemma record_results_run results : ∀ mgr total ok bad,
  total_orders_processed_ mgr = wrap_int total →
  successful_orders_ mgr = wrap_int ok →
  failed_orders_ mgr = wrap_int bad →
  ∃ mgr',
    record_results results mgr = Returned tt mgr'
    ∧ orders_ mgr' = orders_ mgr
    ∧ orders_mutex_ mgr' = orders_mutex_ mgr
    ∧ total_orders_processed_ mgr'
        = wrap_int (total + Z.of_nat (length results))
    ∧ successful_orders_ mgr'
        = wrap_int (ok + Z.of_nat (length (filter (λ b, b = true) results)))
    ∧ failed_orders_ mgr'
        = wrap_int (bad + Z.of_nat (length (filter (λ b, b = false) results))).
Proof.
  induction results as [|success rest IH]; intros mgr total ok bad Ht Hs Hf.
  - exists mgr. cbn [record_results]. rewrite !filter_nil. cbn [length].
    rewrite !Z.add_0_r. by split_and!.
  - cbn [record_results]. rewrite run_bind. unfold updateStatistics, modify.
    rewrite !filter_cons. destruct success.
    + destruct (IH (with_counters (wrap_int (total_orders_processed_ mgr + 1))
                                  (wrap_int (successful_orders_ mgr + 1))
                                  (failed_orders_ mgr) mgr)
                   (total + 1) (ok + 1) bad)
        as (mgr' & -> & Ho & Hm & Ht' & Hs' & Hf');
        [by cbn; rewrite ?Ht, ?Hs, ?wrap_int_add_l..|].
      exists mgr'. rewrite decide_True, decide_False by done. cbn [length].
      rewrite Ht', Hs', Hf'. split_and!; try done; f_equal; lia.
    + destruct (IH (with_counters (wrap_int (total_orders_processed_ mgr + 1))
                                  (successful_orders_ mgr)
                                  (wrap_int (failed_orders_ mgr + 1)) mgr)
                   (total + 1) ok (bad + 1))
        as (mgr' & -> & Ho & Hm & Ht' & Hs' & Hf');
        [by cbn; rewrite ?Ht, ?Hf, ?wrap_int_add_l..|].
      exists mgr'. rewrite decide_False, decide_True by done. cbn [length].
      rewrite Ht', Hs', Hf'. split_and!; try done; f_equal; lia.
Qed.

End ManagerFacts.

(** X27. [createOrder] with an identifier that is taken returns [nullptr]
    and changes nothing, whatever the other argument. With a new
    identifier it throws [invalid_argument] and changes nothing when the
    order or the customer identifier is empty; otherwise it returns the
    new order, which [getOrder] then finds: PENDING, without lines, for
    that customer, and every other order is as before. *)
Theorem createOrder_then_getOrder now order_id customer_id mgr :
  OrderManager.orders_mutex_ mgr = false →
  ∃ result mgr',
    OrderManager.createOrder now order_id customer_id mgr = Returned result mgr'
    ∧ (is_Some (OrderManager.orders_ mgr !! order_id) →
       result = inr None ∧ mgr' = mgr)
    ∧ (OrderManager.orders_ mgr !! order_id = None →
       order_id = "" ∨ customer_id = "" →
       (∃ what, result = inl (invalid_argument what)) ∧ mgr' = mgr)
    ∧ (OrderManager.orders_ mgr !! order_id = None →
       order_id ≠ "" → customer_id ≠ "" →
       result = inr (Some order_id)
       ∧ (∃ order,
            OrderManager.getOrder order_id mgr' = Returned (Some order) mgr'
            ∧ Order.status_ order = PENDING
            ∧ Order.items_ order = []
            ∧ Order.customer_id_ order = customer_id
            ∧ Order.order_mutex_ order = false
            ∧ Order.processing_flag_ order = false)
       ∧ ∀ other, other ≠ order_id →
           OrderManager.orders_ mgr' !! other = OrderManager.orders_ mgr !! other).
Proof.
  intros Hfree. rewrite ManagerFacts.createOrder_run by done.
  destruct (OrderManager.orders_ mgr !! order_id) eqn:Hlookup.
  - eexists _, _. split; [reflexivity|]. split_and!; [done|done..].
  - unfold Order.create.
    destruct (decide (order_id = "")) as [->|Hid].
    + eexists _, _. split; [reflexivity|].
      split_and!; [by intros [? ?]|by eauto|done].
    + rewrite (bool_decide_eq_false_2 (order_id = "")) by done.
      destruct (decide (customer_id = "")) as [->|Hcust].
      * eexists _, _. split; [reflexivity|].
        split_and!; [by intros [? ?]|by eauto|done].
      * rewrite (bool_decide_eq_false_2 (customer_id = "")) by done.
        eexists _, _. split; [reflexivity|].
        split_and!; [by intros [? ?]|by intros _ [?|?]|].
        intros _ _ _. split_and!; [done| |].
        -- eexists. split.
           ++ rewrite ManagerFacts.getOrder_run by done. simpl.
              by rewrite lookup_insert_eq.
           ++ done.
        -- intros other Hne. simpl. by rewrite lookup_insert_ne.
Qed.

(** X27 on a fourth order. *)
Lemma createOrder_then_getOrder_witness :
  ∃ result mgr',
    OrderManager.createOrder 3 "O4" "C9" ManagerSpec.three_orders = Returned result mgr'
    ∧ (is_Some (OrderManager.orders_ ManagerSpec.three_orders !! "O4") →
       result = inr None ∧ mgr' = ManagerSpec.three_orders)
    ∧ (OrderManager.orders_ ManagerSpec.three_orders !! "O4" = None →
       "O4" = "" ∨ "C9" = "" →
       (∃ what, result = inl (invalid_argument what)) ∧ mgr' = ManagerSpec.three_orders)
    ∧ (OrderManager.orders_ ManagerSpec.three_orders !! "O4" = None →
       "O4" ≠ "" → "C9" ≠ "" →
       result = inr (Some "O4")
       ∧ (∃ order,
            OrderManager.getOrder "O4" mgr' = Returned (Some order) mgr'
            ∧ Order.status_ order = PENDING
            ∧ Order.items_ order = []
            ∧ Order.customer_id_ order = "C9"
            ∧ Order.order_mutex_ order = false
            ∧ Order.processing_flag_ order = false)
       ∧ ∀ other, other ≠ "O4" →
           OrderManager.orders_ mgr' !! other
             = OrderManager.orders_ ManagerSpec.three_orders !! other).
Proof.
  apply (createOrder_then_getOrder 3 "O4" "C9" ManagerSpec.three_orders).
  reflexivity.
Defined.

(** X28. [clearCompletedOrders], with no order in use, erases exactly
    the DELIVERED and the CANCELLED orders: every other order, a FAILED
    one too, stays as it was, and the number returned is the number of
    orders erased. *)
Theorem clearCompletedOrders_erases_completed mgr :
  OrderManager.orders_mutex_ mgr = false →
  ManagerSpec.orders_at_rest mgr →
  ∃ count mgr',
    OrderManager.clearCompletedOrders mgr = Returned count mgr'
    ∧ (∀ id order,
         OrderManager.orders_ mgr' !! id = Some order ↔
         OrderManager.orders_ mgr !! id = Some order
         ∧ ¬ ManagerSpec.completed (Order.status_ order))
    ∧ count = wrap_int (Z.of_nat (size (OrderManager.orders_ mgr))
                        - Z.of_nat (size (OrderManager.orders_ mgr')))
    ∧ OrderManager.orders_mutex_ mgr' = false.
Proof.
  intros Hfree Hrest. unfold OrderManager.clearCompletedOrders.
  rewrite ManagerFacts.manager_guarded_run by done. rewrite run_bind. unfold get at 1.
  cbn [OrderManager.orders_ OrderManager.with_mutex].
  destruct (ManagerFacts.clear_completed_run
              (map_to_list (OrderManager.orders_ mgr)) 0
              (OrderManager.with_mutex true mgr))
    as (m' & n & Hrun & Hsize & Hiff).
  { apply NoDup_fst_map_to_list. }
  { intros id o Helem. apply elem_of_map_to_list in Helem.
    split; [done|]. by apply (Hrest id o). }
  change (wrap_int 0) with 0 in Hrun. rewrite Hrun.
  eexists _, _. split; [reflexivity|].
  cbn [OrderManager.orders_ OrderManager.with_mutex OrderManager.with_orders
       OrderManager.orders_mutex_] in *.
  split_and!; [|f_equal; lia|done].
  intros id o. rewrite Hiff, elem_of_map_to_list. tauto.
Qed.

(** X28 on a manager of a delivered, a failed and a pending order. *)
Lemma clearCompletedOrders_erases_completed_witness :
  ∃ count mgr',
    OrderManager.clearCompletedOrders ManagerSpec.three_orders = Returned count mgr'
    ∧ (∀ id order,
         OrderManager.orders_ mgr' !! id = Some order ↔
         OrderManager.orders_ ManagerSpec.three_orders !! id = Some order
         ∧ ¬ ManagerSpec.completed (Order.status_ order))
    ∧ count = wrap_int (Z.of_nat (size (OrderManager.orders_ ManagerSpec.three_orders))
                        - Z.of_nat (size (OrderManager.orders_ mgr')))
    ∧ OrderManager.orders_mutex_ mgr' = false.
Proof.
  apply (clearCompletedOrders_erases_completed ManagerSpec.three_orders).
  - reflexivity.
  - unfold ManagerSpec.orders_at_rest. apply (bool_decide_unpack _).
    vm_compute. exact I.
Defined.

(** X29. [getOrdersByStatus], with no order in use, returns each order of
    that status once and no other order, and changes nothing. While the
    mutex of any order of the manager is held, whatever its status, the
    call does not return. *)
Theorem getOrdersByStatus_lists_or_blocks status mgr :
  OrderManager.orders_mutex_ mgr = false →
  (ManagerSpec.orders_at_rest mgr →
   ∃ ids,
     OrderManager.getOrdersByStatus status mgr = Returned ids mgr
     ∧ NoDup ids
     ∧ ∀ id, id ∈ ids ↔
         ∃ order, OrderManager.orders_ mgr !! id = Some order
                  ∧ Order.status_ order = status)
  ∧ ((∃ id order, OrderManager.orders_ mgr !! id = Some order
                  ∧ Order.order_mutex_ order = true) →
     OrderManager.getOrdersByStatus status mgr = Deadlock).
Proof.
  intros Hfree. unfold OrderManager.getOrdersByStatus.
  rewrite ManagerFacts.manager_guarded_run by done. rewrite run_bind. unfold get at 1.
  cbn [OrderManager.orders_ OrderManager.with_mutex]. split.
  - intros Hrest. rewrite ManagerFacts.collect_by_status_run.
    + rewrite ManagerFacts.manager_unlocked by done. eexists. split; [reflexivity|].
      rewrite app_nil_l. split.
      * apply NoDup_fmap_fst.
        -- intros id o1 o2 H1 H2.
           apply list_elem_of_filter in H1 as [_ H1], H2 as [_ H2].
           apply elem_of_map_to_list in H1, H2. congruence.
        -- apply NoDup_filter, NoDup_map_to_list.
      * intros id. rewrite list_elem_of_fmap. split.
        -- intros [[id' o] [-> Helem]].
           apply list_elem_of_filter in Helem as [Hstatus Helem].
           apply elem_of_map_to_list in Helem. by exists o.
        -- intros (o & Hlookup & Hstatus). exists (id, o). split; [done|].
           apply list_elem_of_filter. split; [done|].
           by apply elem_of_map_to_list.
    + intros id o Helem. apply elem_of_map_to_list in Helem.
      split; [done|]. by apply (Hrest id o).
  - intros (id & o & Hlookup & Hheld). cbv beta iota delta [get].
    cbn [OrderManager.orders_ OrderManager.with_mutex].
    rewrite ManagerFacts.collect_by_status_held; [done| |].
    + intros id' o' Helem. by apply elem_of_map_to_list in Helem.
    + exists id, o. split; [|done]. by apply elem_of_map_to_list.
Qed.

(** X29 on the manager of three orders, at rest and with one order in use. *)
Lemma getOrdersByStatus_lists_or_blocks_witness :
  (∃ ids,
     OrderManager.getOrdersByStatus FAILED ManagerSpec.three_orders
       = Returned ids ManagerSpec.three_orders
     ∧ NoDup ids
     ∧ ∀ id, id ∈ ids ↔
         ∃ order, OrderManager.orders_ ManagerSpec.three_orders !! id = Some order
                  ∧ Order.status_ order = FAILED)
  ∧ OrderManager.getOrdersByStatus FAILED ManagerSpec.three_orders_one_busy
      = Deadlock.
Proof.
  split.
  - apply (getOrdersByStatus_lists_or_blocks FAILED ManagerSpec.three_orders).
    + reflexivity.
    + unfold ManagerSpec.orders_at_rest. apply (bool_decide_unpack _).
    vm_compute. exact I.
  - apply (getOrdersByStatus_lists_or_blocks FAILED
             ManagerSpec.three_orders_one_busy).
    + reflexivity.
    + eexists "O3", _. split; [vm_compute; reflexivity|reflexivity].
Defined.

(** X30. After [updateStatistics] has recorded the results of a batch on
    a new manager, the three counters hold, as [int]s, the number of
    results, of successes and of failures, so that the orders processed
    are the successful and the failed ones together. *)
Theorem updateStatistics_counts results :
  ∃ mgr',
    ManagerSpec.record_results results OrderManager.create = Returned tt mgr'
    ∧ OrderManager.total_orders_processed_ mgr'
        = wrap_int (Z.of_nat (length results))
    ∧ OrderManager.successful_orders_ mgr'
        = wrap_int (Z.of_nat (length (filter (λ b, b = true) results)))
    ∧ OrderManager.failed_orders_ mgr'
        = wrap_int (Z.of_nat (length (filter (λ b, b = false) results)))
    ∧ OrderManager.total_orders_processed_ mgr'
        = wrap_int (OrderManager.successful_orders_ mgr'
                    + OrderManager.failed_orders_ mgr')
    ∧ OrderManager.orders_ mgr' = ∅.
Proof.
  destruct (ManagerFacts.record_results_run results OrderManager.create 0 0 0)
    as (mgr' & Hrun & Ho & _ & Ht & Hs & Hf); [done..|].
  exists mgr'. rewrite Z.add_0_l in Ht, Hs, Hf.
  split_and!; [done..| |done].
  rewrite Ht, Hs, Hf, wrap_int_add_l, TotalFacts.wrap_int_add_r.
  f_equal. rewrite (ManagerFacts.count_results results) at 1. lia.
Qed.
